(** * The ReAct agent, its tool registry and the conversation memory manager

    A shallow embedding of the agent module (the classes [ReActTools] and
    [ReActAgent]: the six tools, the dispatcher and the trace parser) and of
    [lib/memory-manager.ts] (context budgeting and preference extraction, in
    its two revisions), followed by the properties that the specification
    states about them.

    Conventions of the embedding.
    - A JavaScript string is a [string]: a sequence of code units, here
      restricted to the range U+0000..U+00FF (one [ascii] per code unit).
    - A JavaScript number is a binary64 [float] where the code computes with
      fractions (calculator, match scores); it is a [Z] where the code only
      ever holds integers (lengths, prices read by [parseInt], clock
      readings), with [None] standing for [NaN] or [undefined]; the token
      estimates, which are quarters of small integers, are rationals.
    - [async] functions are run to completion one after the other (the code
      awaits every call), so they are state transformers over the outside
      world: the clock and the remote collaborators.
    - An object that is pushed into [this.steps] and mutated afterwards is
      modelled by its index in the array. *)

From Stdlib Require Import ZArith List Ascii String Bool Lia QArith Lqa Floats Sorted.
From stdpp Require Import base list.
Import ListNotations.

Set Warnings "-register-all,-inexact-float,-abstract-large-number".

#[local] Open Scope string_scope.
#[local] Open Scope Z_scope.

(* ------------------------------------------------------------------------- *)
(** ** JavaScript strings *)

Module JsString.

Definition code (c : ascii) : nat := nat_of_ascii c.

Definition inRange (lo hi : nat) (c : ascii) : bool :=
  (lo <=? code c)%nat && (code c <=? hi)%nat.

(** [\s], which is also what [String.prototype.trim] strips: TAB, LF, VT,
    FF, CR, SPACE and NO-BREAK SPACE are the white space and line
    terminator code units below U+0100. *)
Definition isWhiteSpace (c : ascii) : bool :=
  inRange 9 13 c || (code c =? 32)%nat || (code c =? 160)%nat.

Definition isDigit (c : ascii) : bool := inRange 48 57 c.

Definition isUpper (c : ascii) : bool :=
  inRange 65 90 c || (inRange 192 222 c && negb (code c =? 215)%nat).

Definition isLower (c : ascii) : bool :=
  inRange 97 122 c || (inRange 224 254 c && negb (code c =? 247)%nat).

Definition lowerChar (c : ascii) : ascii :=
  if isUpper c then ascii_of_nat (code c + 32) else c.

Definition upperChar (c : ascii) : ascii :=
  if isLower c then ascii_of_nat (code c - 32) else c.

(** [s.toLowerCase()] *)
Fixpoint toLowerCase (s : string) : string :=
  match s with
  | EmptyString => EmptyString
  | String c r => String (lowerChar c) (toLowerCase r)
  end.

Fixpoint trimStart (s : string) : string :=
  match s with
  | EmptyString => EmptyString
  | String c r => if isWhiteSpace c then trimStart r else s
  end.

Fixpoint trimEnd (s : string) : string :=
  match s with
  | EmptyString => EmptyString
  | String c r =>
      match trimEnd r with
      | EmptyString => if isWhiteSpace c then EmptyString else String c EmptyString
      | r' => String c r'
      end
  end.

(** [s.trim()] *)
Definition trim (s : string) : string := trimEnd (trimStart s).

(** [s.startsWith(p)] *)
Definition startsWith (p s : string) : bool := String.prefix p s.

(** [s.includes(sub)] *)
Fixpoint includes (sub s : string) : bool :=
  String.prefix sub s ||
  match s with
  | EmptyString => false
  | String _ r => includes sub r
  end.

(** [s.substring(n)] *)
Fixpoint substring (n : nat) (s : string) : string :=
  match n, s with
  | O, _ => s
  | S _, EmptyString => EmptyString
  | S n', String _ r => substring n' r
  end.

Definition LF : ascii := ascii_of_nat 10.
Definition nl : string := String LF EmptyString.
Definition quote : string := String (ascii_of_nat 34) EmptyString.

(** [s.split('\n')]: never empty, one more piece than there are line
    feeds. *)
Fixpoint splitLines (s : string) : list string :=
  match s with
  | EmptyString => [EmptyString]
  | String c r =>
      if Ascii.eqb c LF then EmptyString :: splitLines r
      else match splitLines r with
           | l :: ls => String c l :: ls
           | [] => [String c EmptyString]
           end
  end.

(** [s.replace(/,/g, '')] *)
Fixpoint removeCommas (s : string) : string :=
  match s with
  | EmptyString => EmptyString
  | String c r =>
      if Ascii.eqb c "," then removeCommas r else String c (removeCommas r)
  end.

(** A string is falsy exactly when it is empty. *)
Definition nonEmpty (s : string) : bool :=
  match s with EmptyString => false | _ => true end.

(** Decimal rendering of an integer, as a template literal prints it. *)
Fixpoint digitsOf (fuel : nat) (n : N) (acc : string) : string :=
  match fuel with
  | O => acc
  | S f =>
      let d := ascii_of_N (48 + N.modulo n 10) in
      let q := N.div n 10 in
      if N.eqb q 0 then String d acc else digitsOf f q (String d acc)
  end.

Definition ofZ (z : Z) : string :=
  let body := digitsOf (S (N.to_nat (N.log2 (Z.abs_N z)))) (Z.abs_N z) EmptyString in
  if z <? 0 then String "-" body else body.

End JsString.

(* ------------------------------------------------------------------------- *)
(** ** Regular expressions with the backtracking semantics of [RegExp] *)

Module JsRegex.
Import JsString.

(** The fragment of the pattern language that the sources use.  [Star true
    r] is the greedy [r*], [Star false r] the lazy [r*?]; alternatives are
    tried left to right. *)
Inductive regex : Type :=
| Eps : regex
| Chr : ascii -> regex
| Class : (ascii -> bool) -> regex
| Seq : regex -> regex -> regex
| Alt : regex -> regex -> regex
| Star : bool -> regex -> regex
| Group : nat -> regex -> regex
| AtEnd : regex.

Fixpoint Lit (s : string) : regex :=
  match s with
  | EmptyString => Eps
  | String c EmptyString => Chr c
  | String c r => Seq (Chr c) (Lit r)
  end.

Definition Plus (r : regex) : regex := Seq r (Star true r).
Definition LazyPlus (r : regex) : regex := Seq r (Star false r).
Definition Opt (r : regex) : regex := Alt r Eps.
Definition LazyOpt (r : regex) : regex := Alt Eps r.
Fixpoint Alts (rs : list regex) : regex :=
  match rs with
  | [] => Class (fun _ => false)
  | [r] => r
  | r :: rs' => Alt r (Alts rs')
  end.
Fixpoint Seqs (rs : list regex) : regex :=
  match rs with
  | [] => Eps
  | [r] => r
  | r :: rs' => Seq r (Seqs rs')
  end.

Definition digit : regex := Class isDigit.
Definition space : regex := Class isWhiteSpace.

Definition captures : Type := list (nat * list ascii).

Definition sameChar (ignoreCase : bool) (c d : ascii) : bool :=
  if ignoreCase then Ascii.eqb (lowerChar c) (lowerChar d) else Ascii.eqb c d.

Definition inClass (ignoreCase : bool) (p : ascii -> bool) (d : ascii) : bool :=
  if ignoreCase then p d || p (lowerChar d) || p (upperChar d) else p d.

Section Matcher.
Context {R : Type}.
Variable ignoreCase : bool.

(** [run r s cs k]: match [r] at the front of [s], then hand the rest of
    the input and the captures to the continuation [k]; a [None] from the
    continuation makes the matcher backtrack.  An iteration of a star
    that consumes nothing is rejected, as in ECMAScript. *)
Fixpoint run (r : regex) (s : list ascii) (cs : captures)
    (k : list ascii -> captures -> option R) {struct r} : option R :=
  match r with
  | Eps => k s cs
  | Chr c =>
      match s with
      | d :: s' => if sameChar ignoreCase c d then k s' cs else None
      | [] => None
      end
  | Class p =>
      match s with
      | d :: s' => if inClass ignoreCase p d then k s' cs else None
      | [] => None
      end
  | Seq r1 r2 => run r1 s cs (fun s' cs' => run r2 s' cs' k)
  | Alt r1 r2 =>
      match run r1 s cs k with
      | Some x => Some x
      | None => run r2 s cs k
      end
  | Star greedy r' =>
      (fix loop (fuel : nat) (s : list ascii) (cs : captures) {struct fuel}
         : option R :=
         match fuel with
         | O => k s cs
         | S fuel' =>
             let again :=
               run r' s cs (fun s' cs' =>
                 if (length s' <? length s)%nat then loop fuel' s' cs'
                 else None) in
             if greedy then
               match again with Some x => Some x | None => k s cs end
             else
               match k s cs with Some x => Some x | None => again end
         end) (length s) s cs
  | Group i r' =>
      run r' s cs (fun s' cs' =>
        k s' ((i, firstn (length s - length s') s) :: cs'))
  | AtEnd =>
      match s with
      | [] => k s cs
      | _ :: _ => None
      end
  end.
End Matcher.

Record matched : Type := Matched {
  index : nat;            (* where the match starts *)
  whole : string;         (* m[0] *)
  groups : captures;      (* the capture groups that took part *)
  rest : list ascii       (* input after the match *)
}.

(** [m[i]]: the text of group [i], [None] for [undefined]. *)
Definition group (i : nat) (m : matched) : option string :=
  match find (fun p => Nat.eqb (fst p) i) (groups m) with
  | Some (_, t) => Some (string_of_list_ascii t)
  | None => None
  end.

Definition matchAt (ignoreCase : bool) (r : regex) (pos : nat) (s : list ascii)
    : option matched :=
  run ignoreCase r s []
    (fun s' cs =>
       Some (Matched pos (string_of_list_ascii (firstn (length s - length s') s)) cs s')).

(** The leftmost match at or after the front of [s]. *)
Fixpoint searchFrom (ignoreCase : bool) (r : regex) (pos : nat) (s : list ascii)
    : option matched :=
  match matchAt ignoreCase r pos s with
  | Some m => Some m
  | None =>
      match s with
      | [] => None
      | _ :: s' => searchFrom ignoreCase r (S pos) s'
      end
  end.

(** [str.match(re)] for a pattern without the [g] flag. *)
Definition exec (ignoreCase : bool) (r : regex) (str : string) : option matched :=
  searchFrom ignoreCase r 0 (list_ascii_of_string str).

(** [str.match(re)] for a pattern with the [g] flag: the texts of all the
    matches from left to right, [None] when there is none.  After an empty
    match the scan moves on by one code unit. *)
Fixpoint allFrom (fuel : nat) (ignoreCase : bool) (r : regex) (s : list ascii)
    : list string :=
  match fuel with
  | O => []
  | S fuel' =>
      match searchFrom ignoreCase r 0 s with
      | None => []
      | Some m =>
          whole m ::
          (if (length (rest m) <? length (drop (index m) s))%nat
           then allFrom fuel' ignoreCase r (rest m)
           else match rest m with
                | [] => []
                | _ :: s' => allFrom fuel' ignoreCase r s'
                end)
      end
  end.

Definition matchAll (ignoreCase : bool) (r : regex) (str : string)
    : option (list string) :=
  match allFrom (S (String.length str)) ignoreCase r (list_ascii_of_string str) with
  | [] => None
  | ms => Some ms
  end.

End JsRegex.

(* ------------------------------------------------------------------------- *)
(** ** Numbers read from text *)

Module JsNumber.
Import JsString.

Definition digitValue (c : ascii) : Z := Z.of_nat (code c) - 48.

Definition hexValue (c : ascii) : option Z :=
  if isDigit c then Some (digitValue c)
  else if inRange 97 102 c then Some (Z.of_nat (code c) - 87)
  else if inRange 65 70 c then Some (Z.of_nat (code c) - 55)
  else None.

(** The longest prefix of decimal digits: its value, how many digits it
    has, and what follows it. *)
Fixpoint readDigits (s : string) (acc : Z) (n : nat) : Z * nat * string :=
  match s with
  | String c r =>
      if isDigit c then readDigits r (10 * acc + digitValue c) (S n)
      else (acc, n, s)
  | EmptyString => (acc, n, s)
  end.

Fixpoint readHex (s : string) (acc : option Z) : option Z :=
  match s with
  | String c r =>
      match hexValue c with
      | Some d => readHex r (Some (16 * default 0 acc + d))
      | None => acc
      end
  | EmptyString => acc
  end.

Definition readSign (s : string) : bool * string :=
  match s with
  | String "-" r => (true, r)
  | String "+" r => (false, r)
  | _ => (false, s)
  end.

(** [parseInt(s)] without a radix; [None] is [NaN].  The result is the
    exact integer (the code never reads one beyond 2^53). *)
Definition parseInt (s : string) : option Z :=
  let '(neg, body) := readSign (trimStart s) in
  let magnitude :=
    match body with
    | String "0" (String "x" r) | String "0" (String "X" r) => readHex r None
    | _ => let '(v, n, _) := readDigits body 0 0 in
           if (n =? 0)%nat then None else Some v
    end in
  option_map (fun v => if neg then - v else v) magnitude.

(** The binary64 number nearest to [num / den] (ties to even), for
    positive [num] and [den]. *)
Definition roundRatio (neg : bool) (num den : Z) : float :=
  let s := Z.max 0 (65 + Z.log2 den - Z.log2 num) in
  let q := (num * 2 ^ s) / den in
  let r := (num * 2 ^ s) mod den in
  let loc := if r =? 0 then loc_Exact else loc_Inexact (Z.compare (2 * r) den) in
  SF2Prim (binary_round_aux FloatOps.prec FloatOps.emax neg q (- s) loc).

Definition ofDecimal (neg : bool) (mantissa : Z) (fractionDigits : nat) : float :=
  if mantissa =? 0 then (if neg then (-0)%float else 0%float)
  else roundRatio neg mantissa (10 ^ Z.of_nat fractionDigits).

(** The exact integer [z] as a number. *)
Definition ofInteger (z : Z) : float := ofDecimal (z <? 0) (Z.abs z) 0.

(** [parseFloat(s)] on a decimal literal: optional sign, digits, optional
    fraction; [nan] when no digit can be read.  Both call sites pass the
    text of a match of [\d+(?:,\d{3})*(?:\.\d+)?] with the commas removed,
    so exponents and [Infinity] never occur. *)
Definition parseFloat (s : string) : float :=
  let '(neg, body) := readSign (trimStart s) in
  let '(ip, ni, afterInt) := readDigits body 0 0 in
  match afterInt with
  | String "." r =>
      let '(m, nf, _) := readDigits r ip 0 in
      if ((ni + nf) =? 0)%nat then nan else ofDecimal neg m nf
  | _ => if (ni =? 0)%nat then nan else ofDecimal neg ip 0
  end.

(** [isFinite(x)] for a number [x]. *)
Definition isFinite (x : float) : bool :=
  negb (is_nan x) && negb (is_infinity x).

End JsNumber.

(* ------------------------------------------------------------------------- *)
(** ** Values and the result envelope *)

(** What [data: any] can hold: JSON-shaped values.  Integer-valued numbers
    that the code builds from counts and prices are kept as [JInt]. *)
Inductive JsValue : Type :=
| JNull : JsValue
| JBool : bool -> JsValue
| JNum : float -> JsValue
| JInt : Z -> JsValue
| JStr : string -> JsValue
| JArr : list JsValue -> JsValue
| JObj : list (string * JsValue) -> JsValue.

(** Truthiness, for [x || fallback]. *)
Definition truthy (v : JsValue) : bool :=
  match v with
  | JNull => false
  | JBool b => b
  | JNum f => negb (is_nan f) && negb (is_zero f)
  | JInt z => negb (z =? 0)
  | JStr s => JsString.nonEmpty s
  | JArr _ | JObj _ => true
  end.

(** A thrown value: an [Error] carrying a message, or anything else. *)
Inductive thrown : Type :=
| ErrorObject (message : string)
| NotAnError.

(** [error instanceof Error ? error.message : fallback] *)
Definition messageOr (fallback : string) (e : thrown) : string :=
  match e with
  | ErrorObject m => m
  | NotAnError => fallback
  end.

Record ToolResult : Type := mkToolResult {
  success : bool;
  data : JsValue;
  error : option string;
  executionTime : option Z
}.

Inductive StepType := thought | action | observation.

Record ReActStep : Type := mkStep {
  type : StepType;
  content : string;
  actionName : option string;
  actionInput : option string;
  timestamp : Z;
  toolResult : option ToolResult
}.

Record ReActResponse : Type := mkResponse {
  steps : list ReActStep;
  finalAnswer : string;
  isComplete : bool;
  needsClarification : bool
}.

(* ------------------------------------------------------------------------- *)
(** ** The outside world *)

(** What a remote call hands back: a value, or a thrown one. *)
Definition outcome (A : Type) : Type := A + thrown.

(** [blink.data.search] answers with optional result arrays. *)
Record SearchResponse : Type := mkSearchResponse {
  organic_results : option (list JsValue);
  news_results : option (list JsValue);
  related_searches : option (list JsValue);
  answer_box : option JsValue
}.

(** What [new Function('return ' + text)()] gives. *)
Inductive evaluated : Type :=
| EvNumber (x : float)
| EvOther
| EvThrows (e : thrown).

(** The collaborators of the agent.  Everything that happens outside the
    repository is a field of this interface: the clock, the search, maps and
    generation services, and the three built-ins of the JavaScript runtime
    that the tools call on computed values. *)
Class Collaborators (World : Type) : Type := {
  (* Date.now() and new Date(): read the clock; time may pass *)
  now : World -> Z * World;
  (* blink.data.search(query, {type: 'all', limit: 10}) *)
  blink_data_search : string -> World -> outcome SearchResponse * World;
  (* fetch(<maps function>, {method: 'POST', body: JSON.stringify({query})}):
     the response's ok flag, status text, and what response.json() gives *)
  fetch_maps : string -> World -> outcome (bool * string * outcome JsValue) * World;
  (* blink.ai.generateObject({prompt, schema}).object *)
  generateObject : string -> World -> outcome JsValue * World;
  (* blink.ai.generateText({prompt, maxTokens}).text *)
  generateText : string -> Z -> World -> outcome string * World;
  (* new Function(body)() *)
  runFunction : string -> evaluated;
  (* Number.prototype.toLocaleString *)
  toLocaleString : float -> string;
  (* JSON.stringify(value, null, 2) *)
  stringify : JsValue -> string
}.

(** Sequencing of awaited calls. *)
Definition M (World A : Type) : Type := World -> A * World.

Definition ret {World A : Type} (a : A) : M World A := fun w => (a, w).

Definition bind {World A B : Type} (c : M World A) (k : A -> M World B) : M World B :=
  fun w => let '(a, w') := c w in k a w'.

Notation "x <- c ;; k" := (bind c (fun x => k))
  (at level 100, c at next level, right associativity).

(** [xs.sort(cmp)]: the stable sort; [after a b] says that the comparator
    puts [a] after [b] ([cmp(a, b) > 0]). *)
Section Sort.
Context {A : Type} (after : A -> A -> bool).

Fixpoint insertSorted (x : A) (l : list A) : list A :=
  match l with
  | [] => [x]
  | y :: l' => if after x y then y :: insertSorted x l' else x :: l
  end.

Definition sortBy (l : list A) : list A := foldr insertSorted [] l.
End Sort.

(* ------------------------------------------------------------------------- *)
(** ** The tools: [class ReActTools] *)

(** The search criteria object that [parsePropertyQuery] fills in; a field
    that was never assigned is [None]. *)
Module Criteria.
Record t : Type := mk {
  minPrice : option Z;
  maxPrice : option Z;
  bedrooms : option Z;
  location : option string;
  propertyType : option string;
  priceType : option string
}.

Definition empty : t := mk None None None None None None.

Definition setMinPrice (v : option Z) (c : t) : t :=
  mk v (maxPrice c) (bedrooms c) (location c) (propertyType c) (priceType c).
Definition setMaxPrice (v : option Z) (c : t) : t :=
  mk (minPrice c) v (bedrooms c) (location c) (propertyType c) (priceType c).
Definition setBedrooms (v : option Z) (c : t) : t :=
  mk (minPrice c) (maxPrice c) v (location c) (propertyType c) (priceType c).
Definition setLocation (v : string) (c : t) : t :=
  mk (minPrice c) (maxPrice c) (bedrooms c) (Some v) (propertyType c) (priceType c).
Definition setPropertyType (v : string) (c : t) : t :=
  mk (minPrice c) (maxPrice c) (bedrooms c) (location c) (Some v) (priceType c).
Definition setPriceType (v : string) (c : t) : t :=
  mk (minPrice c) (maxPrice c) (bedrooms c) (location c) (propertyType c) (Some v).
End Criteria.

Module ReActTools.
Import JsString JsRegex JsNumber.

(** *** Patterns *)

(** [\d+(?:,\d{3})*(?:\.\d+)?] *)
Definition amount : regex :=
  Seqs [Plus digit;
        Star true (Seqs [Chr ","; digit; digit; digit]);
        Opt (Seq (Chr ".") (Plus digit))].

(** [(?:\s*-\s*(<amount>))?], the upper end of a range, as group 2 *)
Definition upTo : regex :=
  Opt (Seqs [Star true space; Chr "-"; Star true space; Group 2 amount]).

(** [/(\d+(?:,\d{3})*(?:\.\d+)?)/g] *)
Definition amountPattern : regex := Group 1 amount.

(** [/(<amount>)(?:\s*-\s*(<amount>))?(?:\s*(?:NPR|rupees?|rs\.?))/i] *)
Definition pricePattern : regex :=
  Seqs [Group 1 amount; upTo; Star true space;
        Alts [Lit "NPR"; Seq (Lit "rupee") (Opt (Chr "s")); Seq (Lit "rs") (Opt (Chr "."))]].

(** [/budget\s+(?:of\s+)?(?:NPR\s+)?(<amount>)(?:\s*-\s*(<amount>))?/i] *)
Definition budgetPattern : regex :=
  Seqs [Lit "budget"; Plus space;
        Opt (Seq (Lit "of") (Plus space));
        Opt (Seq (Lit "NPR") (Plus space));
        Group 1 amount; upTo].

(** [/(\d+)\s*(?:BHK|bedroom|BR|bed)/i] *)
Definition bedroomPattern : regex :=
  Seqs [Group 1 (Plus digit); Star true space;
        Alts [Lit "BHK"; Lit "bedroom"; Lit "BR"; Lit "bed"]].

Definition isLetter (c : ascii) : bool := inRange 65 90 c || inRange 97 122 c.

(** [/(?:in|at|near|around)\s+([A-Za-z\s]+?)(?:\s|$|budget|price|NPR|for|with)/i] *)
Definition locationPattern : regex :=
  Seqs [Alts [Lit "in"; Lit "at"; Lit "near"; Lit "around"]; Plus space;
        Group 1 (LazyPlus (Class (fun c => isLetter c || isWhiteSpace c)));
        Alts [space; AtEnd; Lit "budget"; Lit "price"; Lit "NPR"; Lit "for"; Lit "with"]].

(** [expression.replace(/[^0-9+\-*/.() ]/g, '')] *)
Definition allowedInArithmetic (c : ascii) : bool :=
  isDigit c ||
  existsb (Ascii.eqb c) ["+"; "-"; "*"; "/"; "."; "("; ")"; " "]%char.

Fixpoint sanitize (s : string) : string :=
  match s with
  | EmptyString => EmptyString
  | String c r =>
      if allowedInArithmetic c then String c (sanitize r) else sanitize r
  end.

(** *** The listings *)

Record Property : Type := mkProperty {
  id : string;
  title : string;
  price : Z;
  priceType : string;
  bedrooms : Z;
  bathrooms : Z;
  area : Z;
  areaUnit : option string;
  location : string;
  amenities : list string;
  features : list string;
  match_score : float;
  property_age : string;
  floor : string
}.

Definition mockProperties : list Property :=
  [ mkProperty "1" "2BHK Modern Apartment in Kupondole" 32000 "rent" 2 2 800 None
      "Kupondole, Lalitpur"
      ["Parking"; "WiFi"; "Security"; "Elevator"]
      ["Modern Kitchen"; "Balcony"; "Furnished"]
      0.95 "2 years" "4th Floor";
    mkProperty "2" "2BHK Spacious Flat in Pulchowk" 35000 "rent" 2 2 900 None
      "Pulchowk, Lalitpur"
      ["Parking"; "Elevator"; "Garden"; "Security"]
      ["Garden View"; "Semi-Furnished"; "Storage"]
      0.88 "1 year" "3rd Floor";
    mkProperty "3" "3BHK Family House in Baneshwor" 45000 "rent" 3 3 1200 None
      "Baneshwor, Kathmandu"
      ["Parking"; "Garden"; "Security"; "Water Tank"]
      ["Independent House"; "Terrace"; "Unfurnished"]
      0.82 "5 years" "Ground + 1";
    mkProperty "4" "Commercial Space in Thamel" 80000 "rent" 0 2 600 None
      "Thamel, Kathmandu"
      ["Parking"; "WiFi"; "Security"; "Generator"]
      ["Street Facing"; "High Footfall"; "Restaurant Ready"]
      0.90 "3 years" "Ground Floor";
    mkProperty "5" "Land for Sale in Godawari" 15000000 "sale" 0 0 5 (Some "ropani")
      "Godawari, Lalitpur"
      ["Road Access"; "Electricity"; "Water Source"]
      ["Development Ready"; "Clear Title"; "Investment Grade"]
      0.85 "N/A" "N/A" ].

Definition strings (l : list string) : JsValue := JArr (map JStr l).

Definition propertyToJs (p : Property) : JsValue :=
  JObj ([("id", JStr (id p)); ("title", JStr (title p)); ("price", JInt (price p));
         ("priceType", JStr (priceType p)); ("bedrooms", JInt (bedrooms p));
         ("bathrooms", JInt (bathrooms p)); ("area", JInt (area p))]
        ++ match areaUnit p with Some u => [("areaUnit", JStr u)] | None => [] end
        ++ [("location", JStr (location p)); ("amenities", strings (amenities p));
            ("features", strings (features p)); ("match_score", JNum (match_score p));
            ("property_age", JStr (property_age p)); ("floor", JStr (floor p))]).

Definition field {A : Type} (name : string) (f : A -> JsValue) (o : option A)
    : list (string * JsValue) :=
  match o with Some v => [(name, f v)] | None => [] end.

Definition criteriaToJs (c : Criteria.t) : JsValue :=
  JObj (field "minPrice" JInt (Criteria.minPrice c)
        ++ field "maxPrice" JInt (Criteria.maxPrice c)
        ++ field "bedrooms" JInt (Criteria.bedrooms c)
        ++ field "location" JStr (Criteria.location c)
        ++ field "propertyType" JStr (Criteria.propertyType c)
        ++ field "priceType" JStr (Criteria.priceType c)).

(** *** [parsePropertyQuery] *)

Definition amountOf (m : matched) (i : nat) : option Z :=
  parseInt (removeCommas (default EmptyString (group i m))).

(** The two price rules share their body: group 1 is the minimum, and group
    2, when it took part in the match, the maximum. *)
Definition readRange (found : option matched) (c : Criteria.t) : Criteria.t :=
  match found with
  | Some m =>
      let c' := Criteria.setMinPrice (amountOf m 1) c in
      match group 2 m with
      | Some g => if nonEmpty g then Criteria.setMaxPrice (amountOf m 2) c' else c'
      | None => c'
      end
  | None => c
  end.

Definition parsePropertyQuery (query : string) : Criteria.t :=
  let lower := toLowerCase query in
  (* Extract price range *)
  let c1 := readRange (exec true pricePattern query) Criteria.empty in
  (* Extract budget range *)
  let c2 := readRange (exec true budgetPattern query) c1 in
  (* Extract bedrooms *)
  let c3 :=
    match exec true bedroomPattern query with
    | Some m => Criteria.setBedrooms (parseInt (default EmptyString (group 1 m))) c2
    | None => c2
    end in
  (* Extract location *)
  let c4 :=
    match exec true locationPattern query with
    | Some m => Criteria.setLocation (trim (default EmptyString (group 1 m))) c3
    | None => c3
    end in
  (* Extract property type *)
  let c5 :=
    if includes "commercial" lower then Criteria.setPropertyType "commercial" c4
    else if includes "land" lower then Criteria.setPropertyType "land" c4
    else if includes "house" lower then Criteria.setPropertyType "house" c4
    else if includes "apartment" lower || includes "flat" lower
         then Criteria.setPropertyType "apartment" c4
    else c4 in
  (* Extract price type (rent/sale) *)
  if includes "for rent" lower || includes "rental" lower
  then Criteria.setPriceType "rent" c5
  else if includes "for sale" lower || includes "buy" lower
  then Criteria.setPriceType "sale" c5
  else c5.

(** *** The filter and the ranking of [propertyDatabase] *)

(** [n && test(n)]: a number that is missing or zero is falsy. *)
Definition whenNumber (o : option Z) (test : Z -> bool) : bool :=
  match o with
  | Some n => negb (n =? 0) && test n
  | None => false
  end.

(** [s && test(s)]: a string that is missing or empty is falsy. *)
Definition whenString (o : option string) (test : string -> bool) : bool :=
  match o with
  | Some s => nonEmpty s && test s
  | None => false
  end.

Definition titleHas (word : string) (prop : Property) : bool :=
  includes word (toLowerCase (title prop)).

(** The callback of [mockProperties.filter]. *)
Definition keeps (searchCriteria : Criteria.t) (prop : Property) : bool :=
  if whenNumber (Criteria.maxPrice searchCriteria) (fun m => price prop >? m)
  then false
  else if whenNumber (Criteria.minPrice searchCriteria) (fun m => price prop <? m)
  then false
  else if whenNumber (Criteria.bedrooms searchCriteria)
            (fun b => negb (bedrooms prop =? b))
  then false
  else if whenString (Criteria.location searchCriteria)
            (fun l => negb (includes (toLowerCase l) (toLowerCase (location prop))))
  then false
  else if whenString (Criteria.propertyType searchCriteria) (fun t =>
            if String.eqb t "commercial" && negb (titleHas "commercial" prop) then true
            else if String.eqb t "land" && negb (titleHas "land" prop) then true
            else if String.eqb t "house" && negb (titleHas "house" prop) then true
            else String.eqb t "apartment" && negb (titleHas "apartment" prop)
                 && negb (titleHas "flat" prop))
  then false
  else if whenString (Criteria.priceType searchCriteria)
            (fun t => negb (String.eqb (priceType prop) t))
  then false
  else true.

(** [(a, b) => b.match_score - a.match_score] is positive: [a] goes after
    [b]. *)
Definition lowerScore (a b : Property) : bool :=
  PrimFloat.ltb 0 (PrimFloat.sub (match_score b) (match_score a)).

(** The listings that pass the filter, best score first. *)
Definition filteredProperties (searchCriteria : Criteria.t) : list Property :=
  sortBy lowerScore (List.filter (keeps searchCriteria) mockProperties).

(** *** [interpretCalculationResult] *)

Definition above (bound result : float) : bool := PrimFloat.ltb bound result.

Definition interpretCalculationResult (result : float) (type : string) : string :=
  if String.eqb type "roi" then
    if above 20 result then "Excellent ROI - Very attractive investment"
    else if above 15 result then "Good ROI - Solid investment opportunity"
    else if above 10 result then "Moderate ROI - Acceptable investment"
    else if above 5 result then "Low ROI - Consider other options"
    else "Poor ROI - Not recommended"
  else if String.eqb type "rental_yield" then
    if above 8 result then "Excellent rental yield - Very profitable"
    else if above 6 result then "Good rental yield - Profitable investment"
    else if above 4 result then "Moderate rental yield - Average returns"
    else if above 2 result then "Low rental yield - Below market average"
    else "Poor rental yield - Consider other investments"
  else "Calculation completed successfully".

(** What the [try] block of [calculator] computes before the finiteness
    check: the result and the calculation type, or a thrown value.  A
    result that is not a number at all is [None]. *)
Definition ratio (expression : string) (type : string)
    (compute : float -> float -> float) (complaint : string)
    : outcome (option float * string) :=
  match matchAll false amountPattern expression with
  | Some (first :: second :: _) =>
      inl (Some (compute (parseFloat (removeCommas first))
                         (parseFloat (removeCommas second))), type)
  | _ => inr (ErrorObject complaint)
  end.

Definition roi (gain cost : float) : float := ((gain - cost) / cost) * 100.
Definition rentalYield (annualRent propertyValue : float) : float :=
  (annualRent / propertyValue) * 100.

Definition isRoi (expression : string) : bool :=
  includes "roi" (toLowerCase expression)
  || includes "return on investment" (toLowerCase expression).

Definition isRentalYield (expression : string) : bool :=
  includes "rental yield" (toLowerCase expression).

Section Tools.
Context {World : Type} `{Collaborators World}.

Definition elapsed (startTime : Z) : M World (option Z) :=
  t <- now ;; ret (Some (t - startTime)).

Definition evaluate (expression : string) : outcome (option float * string) :=
  if isRoi expression then
    ratio expression "roi" roi "ROI calculation requires gain and cost values"
  else if isRentalYield expression then
    ratio expression "rental_yield" rentalYield
      "Rental yield calculation requires annual rent and property value"
  else
    match runFunction ("return " ++ sanitize expression) with
    | EvNumber x => inl (Some x, "basic")
    | EvOther => inl (None, "basic")
    | EvThrows e => inr e
    end.

(** [typeof result !== 'number' || !isFinite(result)] throws. *)
Definition checked (o : outcome (option float * string)) : outcome (float * string) :=
  match o with
  | inl (Some x, type) =>
      if isFinite x then inl (x, type)
      else inr (ErrorObject "Invalid calculation result")
  | inl (None, _) => inr (ErrorObject "Invalid calculation result")
  | inr e => inr e
  end.

Definition calculator (expression : string) : M World ToolResult :=
  startTime <- now ;;
  match checked (evaluate expression) with
  | inl (result, calculation_type) =>
      dt <- elapsed startTime ;;
      ret (mkToolResult true
             (JObj [("expression", JStr expression);
                    ("result", JNum result);
                    ("formatted", JStr (toLocaleString result));
                    ("calculation_type", JStr calculation_type);
                    ("interpretation",
                      JStr (interpretCalculationResult result calculation_type))])
             None dt)
  | inr e =>
      dt <- elapsed startTime ;;
      ret (mkToolResult false JNull
             (Some ("Calculation failed: " ++ messageOr "Invalid expression" e)) dt)
  end.

(** [xs?.slice(0, n) || []] *)
Definition firstOf (n : nat) (xs : option (list JsValue)) : JsValue :=
  JArr (take n (default [] xs)).

Definition search (query : string) : M World ToolResult :=
  startTime <- now ;;
  r <- blink_data_search query ;;
  match r with
  | inl response =>
      dt <- elapsed startTime ;;
      ret (mkToolResult true
             (JObj [("query", JStr query);
                    ("organic_results", firstOf 5 (organic_results response));
                    ("news_results", firstOf 3 (news_results response));
                    ("related_searches", firstOf 3 (related_searches response));
                    ("answer_box",
                      match answer_box response with
                      | Some box => if truthy box then box else JNull
                      | None => JNull
                      end);
                    ("total_results",
                      JInt (Z.of_nat (length (default [] (organic_results response)))))])
             None dt)
  | inr e =>
      dt <- elapsed startTime ;;
      ret (mkToolResult false JNull
             (Some ("Search failed: " ++ messageOr "Unknown error" e)) dt)
  end.

(** The payload that [maps] makes up when the service cannot be used. *)
Definition mapsFallback (query : string) : JsValue :=
  JObj [("query", JStr query);
        ("places", JArr [
           JObj [("name", JStr (if includes "Kathmandu" query
                                then "Kathmandu Valley" else "Nepal Location"));
                 ("address", JStr query);
                 ("coordinates", JObj [("lat", JNum 27.7172); ("lng", JNum 85.3240)]);
                 ("nearby_amenities",
                   strings ["Schools"; "Hospitals"; "Markets"; "Transport"]);
                 ("commute_info", JStr "Well connected to major areas");
                 ("infrastructure", JStr "Good road connectivity and utilities");
                 ("safety_rating", JStr "Good");
                 ("demographics", JStr "Mixed residential and commercial area")]]);
        ("infrastructure_projects",
          strings ["Road expansion planned for 2024";
                   "New metro line under construction"]);
        ("commute_times",
          JObj [("City Center", JStr "15-20 minutes");
                ("Airport", JStr "30-40 minutes");
                ("Business District", JStr "10-15 minutes")])].

(** The [try] block of [maps]: the parsed body of an OK response, or
    whatever was thrown on the way ([fetch] failing, the [Error] raised
    for a response that is not OK, [response.json()] failing). *)
Definition askMaps (query : string) : M World (outcome JsValue) :=
  r <- fetch_maps query ;;
  ret match r with
      | inl (ok, statusText, body) =>
          if negb ok then inr (ErrorObject ("Maps API error: " ++ statusText))
          else body
      | inr e => inr e
      end.

Definition maps (query : string) : M World ToolResult :=
  startTime <- now ;;
  r <- askMaps query ;;
  match r with
  | inl data =>
      dt <- elapsed startTime ;;
      ret (mkToolResult true data None dt)
  | inr _ =>
      (* Fallback to mock data for development *)
      dt <- elapsed startTime ;;
      ret (mkToolResult true (mapsFallback query) None dt)
  end.

Definition analysisPrompt (topic : string) : string :=
  "Provide a comprehensive market analysis for Nepal's real estate market on the topic: " ++ quote
  ++ topic ++ quote ++ ". " ++ nl
  ++ "        " ++ nl
  ++ "        Include:" ++ nl
  ++ "        - Current market trends and data" ++ nl
  ++ "        - Investment insights and ROI expectations" ++ nl
  ++ "        - Risk factors and opportunities" ++ nl
  ++ "        - Specific recommendations for Nepal market" ++ nl
  ++ "        - Price ranges and growth projections" ++ nl
  ++ "        - Comparative analysis with regional markets" ++ nl
  ++ "        " ++ nl
  ++ "        Focus on practical, actionable insights for property investors and buyers in Nepal.".

Definition analysisTextPrompt (topic : string) : string :=
  "Provide a detailed market analysis for Nepal's real estate market on the topic: " ++ quote
  ++ topic ++ quote
  ++ ". Include current trends, investment insights, risks, opportunities, and recommendations.".

Definition marketAnalysis (topic : string) : M World ToolResult :=
  startTime <- now ;;
  r <- generateObject (analysisPrompt topic) ;;
  match r with
  | inl object =>
      dt <- elapsed startTime ;;
      ret (mkToolResult true object None dt)
  | inr e =>
      (* Fallback to text generation if object generation fails *)
      r' <- generateText (analysisTextPrompt topic) 500 ;;
      match r' with
      | inl text =>
          dt <- elapsed startTime ;;
          ret (mkToolResult true
                 (JObj [("topic", JStr topic);
                        ("analysis", JStr text);
                        ("market_trends",
                          strings ["Growing demand in Kathmandu Valley";
                                   "Infrastructure development driving prices";
                                   "Foreign investment increasing"]);
                        ("key_insights",
                          strings ["Land appreciation outpacing built properties";
                                   "Rental yields averaging 6-8%";
                                   "Commercial properties showing strong growth"])])
                 None dt)
      | inr _ =>
          dt <- elapsed startTime ;;
          ret (mkToolResult false JNull
                 (Some ("Market analysis failed: " ++ messageOr "Analysis unavailable" e))
                 dt)
      end
  end.

(** Nothing in the [try] block of [propertyDatabase] can throw, so its
    [catch] block has no counterpart here. *)
Definition propertyDatabase (query : string) : M World ToolResult :=
  startTime <- now ;;
  let searchCriteria := parsePropertyQuery query in
  let found := filteredProperties searchCriteria in
  dt <- elapsed startTime ;;
  ret (mkToolResult true
         (JObj [("query", JStr query);
                ("total_found", JInt (Z.of_nat (length found)));
                ("properties", JArr (map propertyToJs (take 10 found)));
                ("search_criteria", criteriaToJs searchCriteria);
                ("database_stats",
                  JObj [("total_properties", JInt (Z.of_nat (length mockProperties)));
                        ("avg_rent_2bhk", JInt 35000);
                        ("avg_sale_price_land", JInt 12000000);
                        ("popular_areas",
                          strings ["Kupondole"; "Pulchowk"; "Baneshwor"; "Thamel"])])])
         None dt).

Definition clarify (question : string) : M World ToolResult :=
  ret (mkToolResult true
         (JObj [("clarification_needed", JBool true);
                ("question", JStr question);
                ("suggested_details",
                  strings ["Property type (apartment, house, commercial, land)";
                           "Budget range in NPR";
                           "Preferred location/area";
                           "Number of bedrooms/bathrooms";
                           "Rent or purchase";
                           "Specific amenities or features"])])
         None (Some 0)).
End Tools.
End ReActTools.

(* ------------------------------------------------------------------------- *)
(** ** The agent: [class ReActAgent] *)

Module ReActAgent.
Import JsString JsRegex.

(** [/Final Answer:\s*([\s\S]+?)(?:\n\n|\n$|$)/i] *)
Definition finalAnswerPattern : regex :=
  Seqs [Lit "Final Answer:"; Star true space;
        Group 1 (LazyPlus (Class (fun _ => true)));
        Alts [Lit (nl ++ nl); Seq (Lit nl) AtEnd; AtEnd]].

Definition cannedAnswer : string :=
  "I need more information to provide a helpful response.".

(** The test that marks a final answer as a clarifying question. *)
Definition isClarifyingQuestion (finalAnswer : string) : bool :=
  includes "?" finalAnswer &&
  (includes "could you" (toLowerCase finalAnswer)
   || includes "please tell me" (toLowerCase finalAnswer)
   || includes "what kind of" (toLowerCase finalAnswer)
   || includes "more details" (toLowerCase finalAnswer)
   || includes "help me" (toLowerCase finalAnswer)
   || includes "tell me more" (toLowerCase finalAnswer)).

(** [`${x}`] for an optional number and an optional string. *)
Definition showNumber (o : option Z) : string :=
  match o with Some z => ofZ z | None => "undefined" end.
Definition showString (o : option string) : string :=
  match o with Some s => s | None => "undefined" end.

Definition setInput (actionInput : string) (step : ReActStep) : ReActStep :=
  mkStep (type step)
         (content step ++ nl ++ "Action Input: " ++ actionInput)
         (actionName step) (Some actionInput) (timestamp step) (toolResult step).

Definition setResult (result : ToolResult) (step : ReActStep) : ReActStep :=
  mkStep (type step) (content step) (actionName step) (actionInput step)
         (timestamp step) (Some result).

(** The locals of [parseReActResponse] together with [this.steps].
    [currentStep] points into [steps]: the object it names in the source
    is the one that was pushed there. *)
Record Parsing : Type := mkParsing {
  stepsSoFar : list ReActStep;
  currentStep : option nat;
  answer : string;
  clarifying : bool
}.

Section Agent.
Context {World : Type} `{Collaborators World}.

(** The [switch] of [executeToolAsync]. *)
Definition dispatch (name input : string) : M World ToolResult :=
  let tool := toLowerCase name in
  if String.eqb tool "search" then ReActTools.search input
  else if String.eqb tool "maps" then ReActTools.maps input
  else if String.eqb tool "calculator" then ReActTools.calculator input
  else if String.eqb tool "marketanalysis" then ReActTools.marketAnalysis input
  else if String.eqb tool "propertydatabase" then ReActTools.propertyDatabase input
  else if String.eqb tool "clarify" then ReActTools.clarify input
  else ret (mkToolResult false JNull (Some ("Unknown tool: " ++ name)) (Some 0)).

Definition observationContent (result : ToolResult) : string :=
  if success result
  then "Tool executed successfully in " ++ showNumber (executionTime result)
       ++ "ms. Result: " ++ stringify (data result)
  else "Tool execution failed: " ++ showString (error result).

(** [executeToolAsync(step)], where [step] is the element of
    [this.steps] at index [i].  No tool throws and neither does the
    rendering of its result, so the [catch] block has no counterpart. *)
Definition executeToolAsync (i : nat) (steps : list ReActStep)
    : M World (list ReActStep) :=
  match steps !! i with
  | Some step =>
      match actionName step, actionInput step with
      | Some name, Some input =>
          if negb (nonEmpty name) || negb (nonEmpty input) then ret steps
          else
            result <- dispatch name input ;;
            (* Store tool result in the step *)
            let steps' := <[i := setResult result step]> steps in
            (* Add observation step with tool result *)
            let observationContent := observationContent result in
            t <- now ;;
            ret (steps' ++ [mkStep observation observationContent None None t
                                   (Some result)])%list
      | _, _ => ret steps
      end
  | None => ret steps
  end.

(** One turn of the [for] loop. *)
Definition parseLine (line : string) (st : Parsing) : M World Parsing :=
  let trimmedLine := trim line in
  if startsWith "Thought:" trimmedLine then
    t <- now ;;
    ret (mkParsing
           (stepsSoFar st
            ++ [mkStep thought (trim (substring 8 trimmedLine)) None None t None])%list
           (currentStep st) (answer st) (clarifying st))
  else if startsWith "Action:" trimmedLine then
    let actionName := trim (substring 7 trimmedLine) in
    t <- now ;;
    ret (mkParsing
           (stepsSoFar st
            ++ [mkStep action ("Action: " ++ actionName) (Some actionName) None t None])%list
           (Some (length (stepsSoFar st))) (answer st) (clarifying st))
  else if startsWith "Action Input:" trimmedLine then
    let actionInput := trim (substring 13 trimmedLine) in
    match currentStep st with
    | Some i =>
        steps' <- executeToolAsync i (alter (setInput actionInput) i (stepsSoFar st)) ;;
        ret (mkParsing steps' (currentStep st) (answer st) (clarifying st))
    | None => ret st
    end
  else if startsWith "Observation:" trimmedLine then
    (* Skip manual observations as we generate them from tool execution *)
    ret st
  else if startsWith "Final Answer:" trimmedLine then
    let finalAnswer := trim (substring 13 trimmedLine) in
    ret (mkParsing (stepsSoFar st) (currentStep st) finalAnswer
           (if isClarifyingQuestion finalAnswer then true else clarifying st))
  else ret st.

Fixpoint parseLines (lines : list string) (st : Parsing) : M World Parsing :=
  match lines with
  | [] => ret st
  | line :: lines' => st' <- parseLine line st ;; parseLines lines' st'
  end.

(** [response.split('\n').filter(line => line.trim())] *)
Definition linesOf (response : string) : list string :=
  List.filter (fun line => nonEmpty (trim line)) (splitLines response).

(** If no final answer was parsed, extract it from the end of the
    response. *)
Definition recovered (response : string) (finalAnswer : string) : string :=
  if nonEmpty finalAnswer then finalAnswer
  else match exec true finalAnswerPattern response with
       | Some m => trim (default EmptyString (group 1 m))
       | None => finalAnswer
       end.

(** [parseReActResponse(response)], run with [this.steps] holding
    [steps0]; the [steps] of the result is [this.steps] afterwards.
    [processQuery] empties [this.steps] before it asks for the completion
    that is parsed here. *)
Definition parseReActResponse (response : string) (steps0 : list ReActStep)
    : M World ReActResponse :=
  st <- parseLines (linesOf response) (mkParsing steps0 None EmptyString false) ;;
  let finalAnswer := recovered response (answer st) in
  ret (mkResponse (stepsSoFar st)
         (if nonEmpty finalAnswer then finalAnswer else cannedAnswer)
         true (clarifying st)).
End Agent.
End ReActAgent.

(* ------------------------------------------------------------------------- *)
(** ** The memory manager: [class MemoryManager] *)

Module MemoryManager.
Import JsString JsRegex JsNumber.

Inductive Role := user | assistant | system.

Definition isSystem (r : Role) : bool :=
  match r with system => true | _ => false end.

Record ConversationMessage : Type := mkMessage {
  id : string;
  role : Role;
  content : string;
  timestamp : Z;
  metadata : option JsValue
}.

(** [{ min: number; max: number }]; [max] is what [parseInt] gave, so it
    can be [NaN] ([None]). *)
Record PriceRange : Type := mkRange { min : Z; max : option Z }.

Record UserPreferences : Type := mkPreferences {
  prefId : string;
  userId : string;
  propertyType : option (list string);
  priceRange : option PriceRange;
  locations : option (list string);
  bedrooms : option Z;
  amenities : option (list string);
  searchHistory : option (list string);
  viewedProperties : option (list string);
  favoriteProperties : option (list string);
  communicationStyle : option string;
  language : option string;
  updatedAt : Z
}.

Record ConversationSession : Type := mkSession {
  sessionId : string;
  sessionUser : string;
  title : string;
  messages : list ConversationMessage;
  lastActivity : Z;
  createdAt : Z;
  sessionUpdatedAt : Z
}.

(** The two private fields of the manager. *)
Record Manager : Type := mkManager {
  currentSession : option ConversationSession;
  userPreferences : option UserPreferences
}.

Definition maxMessagesInMemory : nat := 20.
Definition maxTokensEstimate : Q := 8000.

(** *** [optimizeMessagesForContext] *)

(** [message.content.length / 4].  The estimates and their sums are
    multiples of a quarter far below 2^51, which binary64 holds exactly,
    so the rationals compute what the code computes. *)
Definition tokens (m : ConversationMessage) : Q :=
  inject_Z (Z.of_nat (String.length (content m))) / 4.

(** [ms.reduce((sum, m) => sum + m.content.length / 4, 0)] *)
Definition tokenSum (ms : list ConversationMessage) : Q :=
  fold_left (fun sum m => sum + tokens m)%Q ms 0%Q.

Definition exceeds (x bound : Q) : bool := negb (Qle_bool x bound).

(** The [for] loop: [others] is scanned from its head; a message that does
    not fit ends the scan, one that fits goes to the front of the result. *)
Fixpoint addRecent (others : list ConversationMessage) (totalTokens : Q)
    (optimizedMessages : list ConversationMessage) : list ConversationMessage :=
  match others with
  | [] => optimizedMessages
  | message :: others' =>
      let messageTokens := tokens message in
      if exceeds (totalTokens + messageTokens) maxTokensEstimate
      then optimizedMessages
      else addRecent others' (totalTokens + messageTokens)
                     (message :: optimizedMessages)
  end.

Definition optimizeMessagesForContext (messages : list ConversationMessage)
    : list ConversationMessage :=
  (* Always include system messages *)
  let systemMessages := List.filter (fun m => isSystem (role m)) messages in
  let totalTokens := (0 + tokenSum systemMessages)%Q in
  (* Add recent messages in reverse order until token limit *)
  let otherMessages := rev (List.filter (fun m => negb (isSystem (role m))) messages) in
  addRecent otherMessages totalTokens systemMessages.

Definition getConversationContext (mm : Manager) : list ConversationMessage :=
  match currentSession mm with
  | None => []
  | Some session => optimizeMessagesForContext (messages session)
  end.

(** *** [updateUserPreferences] *)

(** [Partial<UserPreferences>], with the fields that the manager itself
    ever passes. *)
Record Updates : Type := mkUpdates {
  newPriceRange : option PriceRange;
  newBedrooms : option Z;
  newLocations : option (list string);
  newPropertyType : option (list string);
  newAmenities : option (list string);
  newSearchHistory : option (list string)
}.

Definition noUpdates : Updates := mkUpdates None None None None None None.

Definition isSet {A : Type} (o : option A) : bool :=
  match o with Some _ => true | None => false end.

(** [Object.keys(updates).length > 0] *)
Definition anyUpdate (u : Updates) : bool :=
  isSet (newPriceRange u) || isSet (newBedrooms u)
  || isSet (newLocations u) || isSet (newPropertyType u)
  || isSet (newAmenities u) || isSet (newSearchHistory u).

Definition overwrite {A : Type} (new old : option A) : option A :=
  match new with Some _ => new | None => old end.

(** [{ ...this.userPreferences, ...updates, updatedAt: Date.now() }].  The
    write to the store that follows, and the attempt to recreate the row
    when it fails, leave the manager's own fields as they are. *)
Definition updateUserPreferences (updates : Updates) (clock : Z) (mm : Manager)
    : Manager :=
  match userPreferences mm with
  | None => mm
  | Some p =>
      mkManager (currentSession mm)
        (Some (mkPreferences (prefId p) (userId p)
                 (overwrite (newPropertyType updates) (propertyType p))
                 (overwrite (newPriceRange updates) (priceRange p))
                 (overwrite (newLocations updates) (locations p))
                 (overwrite (newBedrooms updates) (bedrooms p))
                 (overwrite (newAmenities updates) (amenities p))
                 (overwrite (newSearchHistory updates) (searchHistory p))
                 (viewedProperties p) (favoriteProperties p)
                 (communicationStyle p) (language p) clock))
  end.

(** *** [extractAndUpdatePreferences], as in [lib/memory-manager.ts] *)

Definition digitOrComma (c : ascii) : bool := isDigit c || Ascii.eqb c ",".

(** [([0-9,]+)] *)
Definition figure : regex := Group 1 (Plus (Class digitOrComma)).

(** [/(?:under|below|maximum|max|budget|afford)\s*(?:npr|rs)?\s*([0-9,]+)/i] *)
Definition ceilingPattern : regex :=
  Seqs [Alts [Lit "under"; Lit "below"; Lit "maximum"; Lit "max"; Lit "budget";
              Lit "afford"];
        Star true space; Opt (Alts [Lit "npr"; Lit "rs"]); Star true space; figure].

(** [/(\d+)\s*(?:bed|bedroom|bhk)/i] *)
Definition bedroomPattern : regex :=
  Seqs [Group 1 (Plus digit); Star true space;
        Alts [Lit "bed"; Lit "bedroom"; Lit "bhk"]].

(** [[...new Set(xs)]]: first occurrences, in order. *)
Fixpoint uniqueAfter (seen xs : list string) : list string :=
  match xs with
  | [] => []
  | x :: xs' =>
      if existsb (String.eqb x) seen then uniqueAfter seen xs'
      else x :: uniqueAfter (x :: seen) xs'
  end.

Definition unique (xs : list string) : list string := uniqueAfter [] xs.

Definition firstGroup (m : matched) : string := default EmptyString (group 1 m).

(** [this.userPreferences.priceRange?.min || 0] *)
Definition knownMin (p : UserPreferences) : Z :=
  match priceRange p with Some r => min r | None => 0 end.

(** [current || []] joined with what the message mentions, when it
    mentions anything. *)
Definition merged (current : option (list string)) (mentioned : list string)
    : option (list string) :=
  match mentioned with
  | [] => None
  | _ => Some (unique (default [] current ++ mentioned))
  end.

Definition mentionedIn (message : string) (words : list string) : list string :=
  List.filter (fun w => includes w message) words.

Definition extracted (p : UserPreferences) (userMessage : string) : Updates :=
  let message := toLowerCase userMessage in
  mkUpdates
    (* Extract budget information *)
    match exec true ceilingPattern message with
    | Some budgetMatch =>
        let maxBudget := parseInt (removeCommas (firstGroup budgetMatch)) in
        Some (mkRange (knownMin p) maxBudget)
    | None => None
    end
    (* Extract bedroom preferences *)
    match exec true bedroomPattern message with
    | Some bedroomMatch => parseInt (firstGroup bedroomMatch)
    | None => None
    end
    (* Extract location preferences *)
    (merged (locations p)
       (mentionedIn message
          ["kathmandu"; "lalitpur"; "bhaktapur"; "pokhara"; "chitwan"; "butwal"]))
    (* Extract property type preferences *)
    (merged (propertyType p)
       (mentionedIn message
          ["apartment"; "house"; "flat"; "villa"; "studio"; "penthouse"]))
    None None.

Definition extractAndUpdatePreferences (userMessage : string) (clock : Z)
    (mm : Manager) : Manager :=
  match userPreferences mm with
  | None => mm
  | Some p =>
      let updates := extracted p userMessage in
      if anyUpdate updates then updateUserPreferences updates clock mm else mm
  end.

(** *** [extractAndUpdatePreferences], as in the revision with the more
    comprehensive patterns *)

Module Comprehensive.

Definition budgetPatterns : list regex :=
  [ ceilingPattern;
    (* /(?:npr|rs)\s*([0-9,]+)(?:\s*(?:per|\/)??\s*month)?/i *)
    Seqs [Alts [Lit "npr"; Lit "rs"]; Star true space; figure;
          Opt (Seqs [Star true space; LazyOpt (Alts [Lit "per"; Chr "/"]);
                     Star true space; Lit "month"])];
    (* /([0-9,]+)\s*(?:npr|rupees?|rs)/i *)
    Seqs [figure; Star true space;
          Alts [Lit "npr"; Seq (Lit "rupee") (Opt (Chr "s")); Lit "rs"]];
    (* /budget\s*(?:of|is|around)?\s*([0-9,]+)/i *)
    Seqs [Lit "budget"; Star true space;
          Opt (Alts [Lit "of"; Lit "is"; Lit "around"]); Star true space; figure] ].

Definition bedroomPatterns : list regex :=
  [ (* /(\d+)\s*(?:bed|bedroom|bhk|br)/i *)
    Seqs [Group 1 (Plus digit); Star true space;
          Alts [Lit "bed"; Lit "bedroom"; Lit "bhk"; Lit "br"]];
    (* /(\d+)\s*room/i *)
    Seqs [Group 1 (Plus digit); Star true space; Lit "room"];
    (* /(one|two|three|four|five)\s*(?:bed|bedroom|bhk)/i *)
    Seqs [Group 1 (Alts [Lit "one"; Lit "two"; Lit "three"; Lit "four"; Lit "five"]);
          Star true space; Alts [Lit "bed"; Lit "bedroom"; Lit "bhk"]] ].

(** [for (const pattern of patterns) { const m = message.match(pattern);
    if (m) { ...; break } }]: the first pattern that matches decides. *)
Fixpoint firstMatch (patterns : list regex) (message : string) : option matched :=
  match patterns with
  | [] => None
  | pattern :: patterns' =>
      match exec true pattern message with
      | Some m => Some m
      | None => firstMatch patterns' message
      end
  end.

(** [budget > 1000], false for [NaN] *)
Definition reasonable (budget : option Z) : bool :=
  match budget with Some b => b >? 1000 | None => false end.

Definition wordToNumber (w : string) : option Z :=
  if String.eqb w "one" then Some 1
  else if String.eqb w "two" then Some 2
  else if String.eqb w "three" then Some 3
  else if String.eqb w "four" then Some 4
  else if String.eqb w "five" then Some 5
  else None.

Definition bedroomCount (text : string) : Z :=
  match exec false (Plus digit) text with
  | Some _ => default 0 (parseInt text)
  | None => default 0 (wordToNumber text)
  end.

(** [Object.entries(propertyTypeMap)], in the order of the literal *)
Definition propertyTypeMap : list (string * string) :=
  [ ("apartment", "apartment"); ("flat", "apartment"); ("bhk", "apartment");
    ("house", "house"); ("villa", "house"); ("bungalow", "house");
    ("commercial", "commercial"); ("office", "commercial"); ("shop", "commercial");
    ("restaurant", "commercial"); ("land", "land"); ("plot", "land");
    ("studio", "apartment"); ("penthouse", "apartment") ].

Definition gazetteer : list string :=
  [ "kathmandu"; "lalitpur"; "bhaktapur"; "pokhara"; "chitwan"; "butwal";
    "thamel"; "pulchowk"; "kupondole"; "baneshwor"; "new road"; "durbarmarg";
    "godawari"; "patan"; "boudha"; "swayambhu"; "balaju"; "maharajgunj";
    "lazimpat"; "naxal"; "panipokhari"; "sinamangal"; "koteshwor"; "un park" ].

Definition extracted (p : UserPreferences) (userMessage : string) : Updates :=
  let message := toLowerCase userMessage in
  mkUpdates
    (* Extract budget information - more comprehensive patterns *)
    match firstMatch budgetPatterns message with
    | Some budgetMatch =>
        let budget := parseInt (removeCommas (firstGroup budgetMatch)) in
        if reasonable budget (* Reasonable budget threshold *)
        then Some (mkRange (knownMin p) budget)
        else None
    | None => None
    end
    (* Extract bedroom preferences - more patterns *)
    match firstMatch bedroomPatterns message with
    | Some bedroomMatch =>
        let bedrooms := bedroomCount (firstGroup bedroomMatch) in
        if (bedrooms >? 0) && (bedrooms <=? 10) then Some bedrooms else None
    | None => None
    end
    (* Extract location preferences - expanded list *)
    (merged (locations p)
       (List.filter
          (fun loc => includes loc message
                      || includes ("in " ++ loc) message
                      || includes ("near " ++ loc) message
                      || includes ("around " ++ loc) message)
          gazetteer))
    (* Extract property type preferences - more comprehensive *)
    (merged (propertyType p)
       (map snd (List.filter (fun entry => includes (fst entry) message)
                   propertyTypeMap)))
    (* Extract family situation *)
    (if includes "couple" message || includes "family" message
        || includes "kids" message || includes "children" message
     then
       let currentAmenities := default [] (amenities p) in
       if existsb (String.eqb "family-friendly") currentAmenities then None
       else Some (currentAmenities ++ ["family-friendly"])%list
     else None)
    None.

Definition extractAndUpdatePreferences (userMessage : string) (clock : Z)
    (mm : Manager) : Manager :=
  match userPreferences mm with
  | None => mm
  | Some p =>
      let updates := extracted p userMessage in
      if anyUpdate updates then updateUserPreferences updates clock mm else mm
  end.

End Comprehensive.

(** *** The rest of the in-memory state *)

(** [xs.slice(start)]: a negative [start] counts from the end. *)
Definition sliceFrom {A : Type} (start : Z) (xs : list A) : list A :=
  let len := Z.of_nat (length xs) in
  drop (Z.to_nat (if start <? 0 then Z.max (len + start) 0 else Z.min start len)) xs.

Definition setMessages (ms : list ConversationMessage) (session : ConversationSession)
    : ConversationSession :=
  mkSession (sessionId session) (sessionUser session) (title session) ms
            (lastActivity session) (createdAt session) (sessionUpdatedAt session).

(** [trimMemoryIfNeeded()]: keep system message + recent messages within
    limits. *)
Definition trimMemoryIfNeeded (mm : Manager) : Manager :=
  match currentSession mm with
  | None => mm
  | Some session =>
      let messages := messages session in
      if (maxMessagesInMemory <? length messages)%nat then
        let systemMessages := List.filter (fun m => isSystem (role m)) messages in
        let otherMessages := List.filter (fun m => negb (isSystem (role m))) messages in
        mkManager
          (Some (setMessages
                   (systemMessages
                    ++ sliceFrom (- Z.of_nat maxMessagesInMemory
                                  + Z.of_nat (length systemMessages)) otherMessages)
                   session))
          (userPreferences mm)
      else mm
  end.

(** [getSearchHistory(limit)]:
    [this.userPreferences?.searchHistory?.slice(-limit) || []] *)
Definition getSearchHistory (limit : Z) (mm : Manager) : list string :=
  match userPreferences mm with
  | Some p =>
      match searchHistory p with
      | Some history => sliceFrom (- limit) history
      | None => []
      end
  | None => []
  end.

(** [addToSearchHistory(query)]: push, keep only the last 50 searches, and
    hand the array to [updateUserPreferences]. *)
Definition addToSearchHistory (query : string) (clock : Z) (mm : Manager) : Manager :=
  match userPreferences mm with
  | None => mm
  | Some p =>
      let pushed := (default [] (searchHistory p) ++ [query])%list in
      let kept :=
        if (50 <? length pushed)%nat then drop (length pushed - 50) pushed else pushed in
      updateUserPreferences
        (mkUpdates None None None None None (Some kept)) clock mm
  end.

End MemoryManager.

(* ------------------------------------------------------------------------- *)
(** ** Two sample worlds *)

Module SampleWorld.

(** The world is the clock reading; each reading takes a millisecond.  The
    network is down: every remote call throws.  The three built-ins of the
    runtime are placeholders: no example below reaches them. *)
Definition offline : Collaborators Z := {|
  now := fun w => (w, w + 1);
  blink_data_search := fun _ w => (inr (ErrorObject "Network request failed"), w);
  fetch_maps := fun _ w => (inr (ErrorObject "Failed to fetch"), w);
  generateObject := fun _ w => (inr (ErrorObject "Network request failed"), w);
  generateText := fun _ _ w => (inr NotAnError, w);
  runFunction := fun _ => EvThrows (ErrorObject "Unexpected end of input");
  toLocaleString := fun _ => "0";
  stringify := fun _ => "null"
|}.

(** The same, except that the maps service is up and answers every query
    with the JSON document [null]. *)
Definition mapsOnly : Collaborators Z := {|
  now := fun w => (w, w + 1);
  blink_data_search := fun _ w => (inr (ErrorObject "Network request failed"), w);
  fetch_maps := fun _ w => (inl (true, "OK", inl JNull), w + 40);
  generateObject := fun _ w => (inr (ErrorObject "Network request failed"), w);
  generateText := fun _ _ w => (inr NotAnError, w);
  runFunction := fun _ => EvThrows (ErrorObject "Unexpected end of input");
  toLocaleString := fun _ => "0";
  stringify := fun _ => "null"
|}.

End SampleWorld.

(* ------------------------------------------------------------------------- *)
(** ** Vocabulary for the properties of the tools *)

Module ToolSpec.
Import JsString ReActTools ReActAgent.

(** A failed envelope: no data, and an error text that is not empty. *)
Definition failureShape (r : ToolResult) : Prop :=
  data r = JNull /\ exists e, error r = Some e /\ e <> EmptyString.

(** [a] is listed before [b] only if its score is not lower. *)
Definition scoreAtLeast (a b : Property) : Prop :=
  PrimFloat.leb (match_score b) (match_score a) = true.

(** The two scenarios of the specification. *)
Definition roiQuestion : string := "ROI of gain 1200000 cost 1000000".

Definition kathmanduQuery : string :=
  "Find me a 2BHK apartment in Kathmandu under NPR 30,000".

End ToolSpec.

(* ------------------------------------------------------------------------- *)
(** ** Vocabulary for the properties of the memory manager *)

Module MemorySpec.
Import JsString MemoryManager.

Definition systemsOf (ms : list ConversationMessage) : list ConversationMessage :=
  List.filter (fun m => isSystem (role m)) ms.

Definition othersOf (ms : list ConversationMessage) : list ConversationMessage :=
  List.filter (fun m => negb (isSystem (role m))) ms.

(** The messages of the active session, none without one. *)
Definition sessionMessages (mm : Manager) : list ConversationMessage :=
  match currentSession mm with
  | Some session => messages session
  | None => []
  end.

(** The price range that the manager holds for its user. *)
Definition storedRange (mm : Manager) : option PriceRange :=
  match userPreferences mm with
  | Some p => priceRange p
  | None => None
  end.

(** A session that holds a single system message of 32004 characters. *)
Definition briefing : ConversationMessage :=
  mkMessage "msg_1" system (string_of_list_ascii (repeat "x"%char 32004)) 1 None.

Definition briefed : Manager :=
  mkManager (Some (mkSession "session_1" "u1" "New Property Search" [briefing] 1 1 1)) None.

(** A session that opens with a system message, followed by a question. *)
Definition greeting : ConversationMessage :=
  mkMessage "msg_1" system "Be concise." 1 None.

Definition question : ConversationMessage :=
  mkMessage "msg_2" user "Any flats in Patan?" 2 None.

Definition greeted : Manager :=
  mkManager
    (Some (mkSession "session_2" "u1" "New Property Search" [greeting; question] 2 1 2))
    None.

(** A user whose preferences have just been created. *)
Definition newcomer : Manager :=
  mkManager None
    (Some (mkPreferences "pref_u1" "u1" (Some []) None (Some []) None (Some [])
             (Some []) (Some []) (Some []) (Some "detailed") (Some "en") 1)).

End MemorySpec.

(* ------------------------------------------------------------------------- *)
(** ** Vocabulary for the properties of the trace parser *)

Module TraceSpec.
Import JsString ReActAgent.

(** *** Lines *)

(** Which branch of the loop body a line takes. *)
Inductive Label :=
| ThoughtLine | ActionLine | ActionInputLine | ObservationLine | FinalAnswerLine
| OtherLine.

Definition label (line : string) : Label :=
  let trimmedLine := trim line in
  if startsWith "Thought:" trimmedLine then ThoughtLine
  else if startsWith "Action:" trimmedLine then ActionLine
  else if startsWith "Action Input:" trimmedLine then ActionInputLine
  else if startsWith "Observation:" trimmedLine then ObservationLine
  else if startsWith "Final Answer:" trimmedLine then FinalAnswerLine
  else OtherLine.

(** The text after a label of [n] code units. *)
Definition after (n : nat) (line : string) : string := trim (substring n (trim line)).

(** *** Final answers *)

Definition isFinalAnswerLine (line : string) : bool :=
  match label line with FinalAnswerLine => true | _ => false end.

(** The answer and the flag after a line, from what they were before it. *)
Definition answerAfter (line : string) (before : string) : string :=
  if isFinalAnswerLine line then after 13 line else before.

Definition clarifyingAfter (line : string) (before : bool) : bool :=
  if isFinalAnswerLine line then isClarifyingQuestion (after 13 line) || before
  else before.

(** The text of the last [Final Answer:] line, [before] when there is none. *)
Definition lastAnswer (lines : list string) (before : string) : string :=
  fold_left (fun a line => answerAfter line a) lines before.

(** Whether some [Final Answer:] line reads as a clarifying question. *)
Definition anyClarifying (lines : list string) (before : bool) : bool :=
  fold_left (fun c line => clarifyingAfter line c) lines before.

(** What the pattern finds in the whole text, trimmed; empty when it finds
    nothing. *)
Definition scanned (response : string) : string :=
  match JsRegex.exec true finalAnswerPattern response with
  | Some m => trim (default EmptyString (JsRegex.group 1 m))
  | None => EmptyString
  end.

Definition withoutFinalAnswers (lines : list string) : list string :=
  List.filter (fun line => negb (isFinalAnswerLine line)) lines.

(** The part of the parsing state that the steps depend on. *)
Definition core (st : Parsing) : list ReActStep * option nat :=
  (stepsSoFar st, currentStep st).

(** A completion with the answer on the line after the label. *)
Definition askedOnTheNextLine : string :=
  "Final Answer:" ++ nl ++ "Could you tell me your budget?".

(** *** Unknown tools *)




(** *** Pairs of [Action:] and [Action Input:] lines *)




Definition isObservation (s : ReActStep) : bool :=
  match type s with observation => true | _ => false end.




Section AnyWorld.
Context {World : Type} `{Collaborators World}.






End AnyWorld.

End TraceSpec.

(* ------------------------------------------------------------------------- *)
(** ** Vocabulary for the state of the memory manager *)

Module StateSpec.
Import JsString MemoryManager MemorySpec.

(** The search history that the manager holds, empty without preferences or
    without a history. *)
Definition storedHistory (mm : Manager) : list string :=
  match userPreferences mm with
  | Some p => default [] (searchHistory p)
  | None => []
  end.

Definition storedLocations (mm : Manager) : list string :=
  match userPreferences mm with
  | Some p => default [] (locations p)
  | None => []
  end.

Definition storedTypes (mm : Manager) : list string :=
  match userPreferences mm with
  | Some p => default [] (propertyType p)
  | None => []
  end.

Definition storedBedrooms (mm : Manager) : option Z :=
  match userPreferences mm with
  | Some p => bedrooms p
  | None => None
  end.

Definition storedAmenities (mm : Manager) : list string :=
  match userPreferences mm with
  | Some p => default [] (amenities p)
  | None => []
  end.

(** The places and the kinds of property that the first revision of the
    extraction looks for. *)
Definition places : list string :=
  ["kathmandu"; "lalitpur"; "bhaktapur"; "pokhara"; "chitwan"; "butwal"].

Definition kinds : list string :=
  ["apartment"; "house"; "flat"; "villa"; "studio"; "penthouse"].

(** A manager whose session holds the given messages. *)
Definition holding (ms : list ConversationMessage) : Manager :=
  mkManager (Some (mkSession "session_3" "u1" "New Property Search" ms 1 1 1)) None.

Definition note (r : Role) (text : string) : ConversationMessage :=
  mkMessage "msg" r text 1 None.

(** A user with three searches in the history. *)
Definition searcher : Manager :=
  mkManager None
    (Some (mkPreferences "pref_u1" "u1" (Some []) None (Some ["patan"]) None (Some [])
             (Some ["flats"; "land"; "shops"]) (Some []) (Some []) (Some "detailed")
             (Some "en") 1)).

End StateSpec.

(* ------------------------------------------------------------------------- *)
(** ** Vocabulary for what the parser does on any completion *)

Module ParserSpec.
Import JsString ReActAgent TraceSpec.

Definition isThought (s : ReActStep) : bool :=
  match type s with thought => true | _ => false end.

Definition isThoughtLine (line : string) : bool :=
  match label line with ThoughtLine => true | _ => false end.

Definition isActionLine (line : string) : bool :=
  match label line with ActionLine => true | _ => false end.

Definition isActionInputLine (line : string) : bool :=
  match label line with ActionInputLine => true | _ => false end.

(** A line that the loop does something with. *)
Definition labelled (line : string) : bool :=
  match label line with
  | ObservationLine | OtherLine => false
  | _ => true
  end.

(** A [Final Answer:] line whose text reads as a clarifying question. *)
Definition clarifies (line : string) : bool :=
  isFinalAnswerLine line && isClarifyingQuestion (after 13 line).

(** Whether an [Action Input:] line runs a tool, given the name on the last
    [Action:] line before it, if there is one: both texts must be there. *)
Definition runsTool (current : option string) (line : string) : bool :=
  match current with
  | Some name => nonEmpty name && nonEmpty (after 13 line)
  | None => false
  end.

(** The kinds of the steps that the lines give rise to, in order, read off
    the labels alone.  [current] is the name on the last [Action:] line. *)
Fixpoint traceTypes (lines : list string) (current : option string) : list StepType :=
  match lines with
  | [] => []
  | line :: rest =>
      match label line with
      | ThoughtLine => thought :: traceTypes rest current
      | ActionLine => action :: traceTypes rest (Some (after 7 line))
      | ActionInputLine =>
          if runsTool current line then observation :: traceTypes rest current
          else traceTypes rest current
      | _ => traceTypes rest current
      end
  end.

Definition sameType (a b : StepType) : bool :=
  match a, b with
  | thought, thought | action, action | observation, observation => true
  | _, _ => false
  end.

Definition numberOf (t : StepType) (ts : list StepType) : nat :=
  length (List.filter (sameType t) ts).

Section AnyWorld.
Context {World : Type} `{Collaborators World}.

(** An observation step that comes from a tool: it holds a result, and its
    text is the rendering of that result. *)
Definition Grounded (o : ReActStep) : Prop :=
  isObservation o = true ->
  exists r, toolResult o = Some r /\ content o = observationContent r.

End AnyWorld.

(** A completion with two inputs for one action. *)
Definition twoInputs : string :=
  "Action: Search" ++ nl ++
  "Action Input: flats in Patan" ++ nl ++
  "Action Input: land in Godawari".

(** The same completion wrapped in text without labels. *)
Definition chatty : string :=
  "Sure, let me check." ++ nl ++
  "Action: Search" ++ nl ++
  "Observation: nothing yet" ++ nl ++
  "Action Input: flats in Patan" ++ nl ++
  "Action Input: land in Godawari" ++ nl ++
  "That is all.".

End ParserSpec.

(* ------------------------------------------------------------------------- *)
(** ** Properties of the tools *)

Module ToolProperties.
Import JsString ReActTools ReActAgent ToolSpec.

Section AnyWorld.
Context {World : Type} `{Collaborators World}.

Ltac failed_with :=
  split; [reflexivity | eexists; split; [reflexivity | simpl; discriminate]].

Lemma search_failure query w :
  success (fst (search query w)) = false -> failureShape (fst (search query w)).
Proof.
  unfold search, elapsed, bind, ret.
  destruct (now w) as [t0 w1].
  destruct (blink_data_search query w1) as [[response | e] w2];
    destruct (now w2) as [t1 w3]; simpl; [discriminate | intros _; failed_with].
Qed.

Lemma maps_succeeds query w : success (fst (maps query w)) = true.
Proof.
  unfold maps, askMaps, elapsed, bind, ret.
  destruct (now w) as [t0 w1].
  destruct (fetch_maps query w1) as [[[[[|] statusText] [body | e]] | e] w2];
    simpl; destruct (now w2) as [t1 w3]; reflexivity.
Qed.

Lemma calculator_failure expression w :
  success (fst (calculator expression w)) = false ->
  failureShape (fst (calculator expression w)).
Proof.
  unfold calculator, elapsed, bind, ret.
  destruct (now w) as [t0 w1].
  destruct (checked (evaluate expression)) as [[result type] | e];
    destruct (now w1) as [t1 w2]; simpl; [discriminate | intros _; failed_with].
Qed.

Lemma marketAnalysis_failure topic w :
  success (fst (marketAnalysis topic w)) = false ->
  failureShape (fst (marketAnalysis topic w)).
Proof.
  unfold marketAnalysis, elapsed, bind, ret.
  destruct (now w) as [t0 w1].
  destruct (generateObject (analysisPrompt topic) w1) as [[object | e] w2].
  - destruct (now w2) as [t1 w3]; simpl; discriminate.
  - destruct (generateText (analysisTextPrompt topic) 500 w2) as [[text | e'] w3];
      destruct (now w3) as [t1 w4]; simpl; [discriminate | intros _; failed_with].
Qed.

Lemma propertyDatabase_succeeds query w :
  success (fst (propertyDatabase query w)) = true.
Proof.
  unfold propertyDatabase, elapsed, bind, ret.
  destruct (now w) as [t0 w1]; destruct (now w1) as [t1 w2]; reflexivity.
Qed.

Lemma clarify_succeeds question (w : World) : success (fst (clarify question w)) = true.
Proof. reflexivity. Qed.

(** C2.  Whatever tool the dispatcher runs (the six tools and the branch
    for an unknown name) and whatever its input, a result with
    [success = false] has [data = null] and a non-empty [error]. *)
Theorem failed_result_has_no_data_and_an_error (name input : string) (w : World) :
  success (fst (dispatch name input w)) = false ->
  failureShape (fst (dispatch name input w)).
Proof.
  unfold dispatch.
  repeat match goal with
    | |- context [if ?b then _ else _] => destruct b
    end.
  - apply search_failure.
  - rewrite maps_succeeds; discriminate.
  - apply calculator_failure.
  - apply marketAnalysis_failure.
  - rewrite propertyDatabase_succeeds; discriminate.
  - rewrite clarify_succeeds; discriminate.
  - intros _; failed_with.
Qed.

End AnyWorld.

(** The witness of C2: with the network down, [Search] fails. *)
Lemma failed_result_witness :
  success (fst (dispatch (H := SampleWorld.offline) "Search" "land prices" 0)) = false /\
  failureShape (fst (dispatch (H := SampleWorld.offline) "Search" "land prices" 0)).
Proof.
  split; [reflexivity |].
  apply (failed_result_has_no_data_and_an_error (H := SampleWorld.offline)
           "Search" "land prices" 0).
  reflexivity.
Defined.

(** The converse of C2 does not hold: a success may carry [null]. *)
Example success_with_null_data :
  let r := fst (maps (H := SampleWorld.mapsOnly) "Thamel" 0) in
  success r = true /\ data r = JNull.
Proof. split; reflexivity. Qed.

(** *** The calculator at the boundary of the ROI bands *)

Lemma roiQuestion_value {World : Type} `{Collaborators World} :
  checked (evaluate roiQuestion) = inl (20%float, "roi").
Proof. vm_compute. reflexivity. Qed.

(** C5.  On "ROI of gain 1200000 cost 1000000" the calculator succeeds; the
    result is the number 20 exactly, and its interpretation is the one of
    the "good" band: 20 is above 15 but not above 20. *)
Theorem calculator_roi_of_twenty_is_good :
  forall (World : Type) (C : Collaborators World) (w : World),
    let r := fst (calculator roiQuestion w) in
    success r = true /\
    data r = JObj [("expression", JStr roiQuestion);
                   ("result", JNum 20);
                   ("formatted", JStr (toLocaleString 20));
                   ("calculation_type", JStr "roi");
                   ("interpretation", JStr "Good ROI - Solid investment opportunity")] /\
    above 20 20 = false /\ above 15 20 = true.
Proof.
  intros World C w.
  unfold calculator, elapsed, bind, ret.
  destruct (now w) as [t0 w1].
  rewrite roiQuestion_value.
  destruct (now w1) as [t1 w2]; simpl.
  repeat split; reflexivity.
Qed.

(** *** The property database *)

Lemma insertSorted_In {A : Type} (after : A -> A -> bool) (x y : A) (l : list A) :
  In y (insertSorted after x l) <-> y = x \/ In y l.
Proof.
  induction l as [| z l IH]; simpl.
  - intuition.
  - destruct (after x z); simpl; rewrite ?IH; intuition.
Qed.

Lemma sortBy_In {A : Type} (after : A -> A -> bool) (y : A) (l : list A) :
  In y (sortBy after l) <-> In y l.
Proof.
  induction l as [| x l IH]; simpl; [tauto |].
  rewrite insertSorted_In, IH. intuition.
Qed.

(** Whatever the criteria, the listings found are the listings of the
    corpus that pass the filter, best score first. *)
Lemma filteredProperties_sound (c : Criteria.t) :
  (forall p, In p (filteredProperties c) <-> In p mockProperties /\ keeps c p = true) /\
  Sorted.StronglySorted scoreAtLeast (filteredProperties c).
Proof.
  split.
  - intros p. unfold filteredProperties.
    rewrite sortBy_In, filter_In. tauto.
  - unfold filteredProperties, mockProperties. cbn [List.filter].
    repeat match goal with
      | |- context [keeps c ?p] => destruct (keeps c p)
      end;
      vm_compute sortBy;
      repeat (constructor; try reflexivity).
Qed.

(** The counterexample to C4 as stated: no upper price bound is read from
    the query, so the criteria are not the ones with [maxPrice = 30000]. *)
Lemma kathmandu_query_has_no_price_ceiling :
  Criteria.maxPrice (parsePropertyQuery kathmanduQuery) = None /\
  parsePropertyQuery kathmanduQuery <>
    Criteria.mk None (Some 30000) (Some 2) (Some "Kathmandu") (Some "apartment") None.
Proof. split; [vm_compute; reflexivity | vm_compute; discriminate]. Qed.

(** C4, amended.  From "Find me a 2BHK apartment in Kathmandu under NPR
    30,000" the parser reads bedrooms = 2, location = "Kathmandu" and
    propertyType = "apartment", and no price bound.  The tool succeeds and
    returns the listings of the corpus that pass these filters, best
    [match_score] first; the corpus has none, so the list is empty. *)
Theorem kathmandu_query_criteria_and_listings :
  parsePropertyQuery kathmanduQuery =
    Criteria.mk None None (Some 2) (Some "Kathmandu") (Some "apartment") None /\
  (forall p, In p (filteredProperties (parsePropertyQuery kathmanduQuery)) <->
             In p mockProperties /\ keeps (parsePropertyQuery kathmanduQuery) p = true) /\
  Sorted.StronglySorted scoreAtLeast (filteredProperties (parsePropertyQuery kathmanduQuery)) /\
  filteredProperties (parsePropertyQuery kathmanduQuery) = [] /\
  forall (World : Type) (C : Collaborators World) (w : World),
    let r := fst (propertyDatabase kathmanduQuery w) in
    success r = true /\
    exists stats,
      data r = JObj [("query", JStr kathmanduQuery);
                     ("total_found", JInt 0);
                     ("properties", JArr []);
                     ("search_criteria",
                       JObj [("bedrooms", JInt 2); ("location", JStr "Kathmandu");
                             ("propertyType", JStr "apartment")]);
                     ("database_stats", stats)].
Proof.
  split; [vm_compute; reflexivity |].
  split; [apply filteredProperties_sound |].
  split; [apply filteredProperties_sound |].
  split; [vm_compute; reflexivity |].
  intros World C w. unfold propertyDatabase, elapsed, bind, ret.
  destruct (now w) as [t0 w1]; destruct (now w1) as [t1 w2]; simpl.
  split; [reflexivity |].
  eexists. vm_compute. reflexivity.
Qed.

End ToolProperties.

(* ------------------------------------------------------------------------- *)
(** ** Properties of the memory manager *)

Module MemoryProperties.
Import JsString MemoryManager MemorySpec.

#[local] Open Scope Q_scope.

Lemma tokens_nonneg (m : ConversationMessage) : 0 <= tokens m.
Proof.
  unfold tokens, Qdiv, Qmult, Qinv, Qle, inject_Z; simpl. lia.
Qed.

Lemma fold_tokens_from (ms : list ConversationMessage) (a : Q) :
  fold_left (fun sum m => sum + tokens m) ms a == a + tokenSum ms.
Proof.
  unfold tokenSum. revert a.
  induction ms as [| m ms IH]; intros a; simpl.
  - lra.
  - rewrite (IH (a + tokens m)), (IH (0 + tokens m)). lra.
Qed.

Lemma tokenSum_cons (m : ConversationMessage) (ms : list ConversationMessage) :
  tokenSum (m :: ms) == tokens m + tokenSum ms.
Proof.
  unfold tokenSum at 1; simpl. rewrite fold_tokens_from. lra.
Qed.

Lemma tokenSum_app (xs ys : list ConversationMessage) :
  tokenSum (xs ++ ys) == tokenSum xs + tokenSum ys.
Proof.
  induction xs as [| x xs IH]; simpl.
  - unfold tokenSum at 2; simpl. lra.
  - rewrite !tokenSum_cons, IH. lra.
Qed.

Lemma tokenSum_nonneg (ms : list ConversationMessage) : 0 <= tokenSum ms.
Proof.
  induction ms as [| m ms IH].
  - unfold tokenSum; simpl. lra.
  - rewrite tokenSum_cons. pose proof (tokens_nonneg m). lra.
Qed.

Lemma exceeds_true (x b : Q) : exceeds x b = true <-> b < x.
Proof.
  unfold exceeds. rewrite negb_true_iff, <- not_true_iff_false, Qle_bool_iff.
  split; [apply Qnot_le_lt | apply Qlt_not_le].
Qed.

Lemma exceeds_false (x b : Q) : exceeds x b = false <-> x <= b.
Proof.
  unfold exceeds. rewrite negb_false_iff. apply Qle_bool_iff.
Qed.

(** What the scan takes: a prefix of the newest-first list, put back in
    front of the result in the opposite order.  The running total stays
    within the limit, and the first message left behind would break it. *)
Lemma addRecent_takes (others acc : list ConversationMessage) (total : Q) :
  exists taken left,
    others = (taken ++ left)%list /\
    addRecent others total acc = (rev taken ++ acc)%list /\
    (taken = [] \/ total + tokenSum taken <= maxTokensEstimate) /\
    match left with
    | [] => True
    | m :: _ => maxTokensEstimate < total + tokenSum taken + tokens m
    end.
Proof.
  revert acc total.
  induction others as [| m others IH]; intros acc total.
  - exists [], []. repeat split; auto.
  - simpl. destruct (exceeds (total + tokens m) maxTokensEstimate) eqn:E.
    + exists [], (m :: others). repeat split; auto.
      apply exceeds_true in E. unfold tokenSum at 1; simpl. lra.
    + apply exceeds_false in E.
      destruct (IH (m :: acc) (total + tokens m)) as (taken & left & -> & -> & Hin & Hout).
      exists (m :: taken), left. split; [reflexivity |].
      split; [simpl; rewrite <- app_assoc; reflexivity |].
      split.
      * right. rewrite tokenSum_cons.
        destruct Hin as [-> | Hin]; [unfold tokenSum; simpl; lra | lra].
      * destruct left as [| m' left]; [exact I |].
        rewrite tokenSum_cons. lra.
Qed.

Lemma tokenSum_rev (ms : list ConversationMessage) : tokenSum (rev ms) == tokenSum ms.
Proof.
  induction ms as [| m ms IH]; simpl; [reflexivity |].
  rewrite tokenSum_app, !tokenSum_cons, IH. unfold tokenSum at 2; simpl. lra.
Qed.

(** The counterexample to C6 as stated.  System messages are kept whatever
    they cost, so a long one alone takes the estimate to 8001; and the
    context lists the system messages after the others, which is not the
    order of the session. *)
Lemma system_messages_can_exceed_the_budget :
  maxTokensEstimate < tokenSum (getConversationContext briefed) /\
  sessionMessages greeted = [greeting; question] /\
  getConversationContext greeted = [question; greeting].
Proof. split; [vm_compute; reflexivity | split; reflexivity]. Qed.

(** C6, amended.  The context is a run of the most recent non-system
    messages, oldest first, followed by every system message.  The run is
    the longest one that keeps the estimate (system messages included)
    within 8000: the message just before it, if any, would break the limit.
    Hence the estimate of the context is at most 8000 unless the system
    messages alone exceed it, and then the context is just these. *)
Theorem context_keeps_system_messages_and_fills_the_budget (mm : Manager) :
  exists older selected,
    othersOf (sessionMessages mm) = (older ++ selected)%list /\
    getConversationContext mm = (selected ++ systemsOf (sessionMessages mm))%list /\
    (if exceeds (tokenSum (systemsOf (sessionMessages mm))) maxTokensEstimate
     then selected = []
     else tokenSum (getConversationContext mm) <= maxTokensEstimate) /\
    match last older with
    | Some m =>
        maxTokensEstimate <
        tokenSum (systemsOf (sessionMessages mm)) + tokenSum selected + tokens m
    | None => True
    end.
Proof.
  unfold getConversationContext, sessionMessages.
  destruct (currentSession mm) as [session |].
  - unfold optimizeMessagesForContext.
    fold (systemsOf (messages session)). fold (othersOf (messages session)).
    destruct (addRecent_takes (rev (othersOf (messages session)))
                (systemsOf (messages session))
                (0 + tokenSum (systemsOf (messages session))))
      as (taken & left & Hsplit & -> & Hin & Hout).
    exists (rev left), (rev taken).
    split.
    { rewrite <- rev_app_distr, <- Hsplit, rev_involutive. reflexivity. }
    split; [reflexivity |].
    pose proof (tokenSum_nonneg taken) as Hpos.
    split.
    + destruct (exceeds _ _) eqn:E.
      * apply exceeds_true in E. destruct Hin as [-> | Hin]; [reflexivity | lra].
      * apply exceeds_false in E.
        rewrite tokenSum_app, tokenSum_rev.
        destruct Hin as [-> | Hin]; [unfold tokenSum at 1; simpl; lra | lra].
    + destruct left as [| m left]; simpl; [exact I |].
      rewrite last_snoc, tokenSum_rev. lra.
  - exists [], []. repeat split; auto.
    vm_compute. discriminate.
Qed.

(** *** Budgets read from a message *)

#[local] Open Scope Z_scope.

(** C9, on [lib/memory-manager.ts].  The message "a room under 500" makes
    500 the stored maximum of the price range: this revision has no
    threshold on the amount. *)
Theorem small_amount_becomes_the_price_ceiling :
  storedRange newcomer = None /\
  storedRange (extractAndUpdatePreferences "a room under 500" 2 newcomer)
  = Some (mkRange 0 (Some 500)).
Proof. split; vm_compute; reflexivity. Qed.

(** The revision with the more comprehensive patterns does have the
    threshold: a price range is only ever written with a maximum above
    1000. *)
Lemma comprehensive_range_is_above_threshold (p : UserPreferences) (userMessage : string)
    (r : PriceRange) :
  newPriceRange (Comprehensive.extracted p userMessage) = Some r ->
  exists budget, max r = Some budget /\ 1000 < budget /\ min r = knownMin p.
Proof.
  unfold Comprehensive.extracted; cbn [newPriceRange].
  destruct (Comprehensive.firstMatch _ _) as [budgetMatch |]; [| discriminate].
  destruct (JsNumber.parseInt _) as [budget |]; cbn [Comprehensive.reasonable];
    [| discriminate].
  destruct (budget >? 1000) eqn:E; [| discriminate].
  intros [= <-]. exists budget. repeat split; cbn; lia.
Qed.

(** So, in that revision, a message leaves the stored price range as it was
    or sets its maximum to an amount above 1000. *)
Lemma comprehensive_keeps_or_raises_the_ceiling (userMessage : string) (clock : Z)
    (mm : Manager) :
  storedRange (Comprehensive.extractAndUpdatePreferences userMessage clock mm)
  = storedRange mm
  \/ exists r budget,
       storedRange (Comprehensive.extractAndUpdatePreferences userMessage clock mm)
       = Some r /\ max r = Some budget /\ 1000 < budget.
Proof.
  unfold Comprehensive.extractAndUpdatePreferences, storedRange.
  destruct (userPreferences mm) as [p |] eqn:Hp; [| rewrite Hp; auto].
  destruct (anyUpdate _); [| rewrite Hp; auto].
  unfold updateUserPreferences; rewrite Hp; cbn [userPreferences priceRange].
  destruct (newPriceRange (Comprehensive.extracted p userMessage)) as [r |] eqn:Hr;
    cbn [overwrite]; [| auto].
  right. destruct (comprehensive_range_is_above_threshold _ _ _ Hr) as (b & ? & ? & _).
  eauto.
Qed.

(** There, "a room under 500" is discarded. *)
Example comprehensive_discards_small_amount :
  storedRange (Comprehensive.extractAndUpdatePreferences "a room under 500" 2 newcomer)
  = None.
Proof. vm_compute. reflexivity. Qed.

End MemoryProperties.

(* ------------------------------------------------------------------------- *)
(** ** Properties of the trace parser and the dispatcher *)

Module AgentProperties.
Import JsString ReActAgent TraceSpec.

Section AnyWorld.
Context {World : Type} `{Collaborators World}.

Lemma parseLine_by_label (line : string) (st : Parsing) :
  parseLine line st =
  match label line with
  | ThoughtLine =>
      t <- now ;;
      ret (mkParsing
             (stepsSoFar st ++ [mkStep thought (after 8 line) None None t None])%list
             (currentStep st) (answer st) (clarifying st))
  | ActionLine =>
      t <- now ;;
      ret (mkParsing
             (stepsSoFar st
              ++ [mkStep action ("Action: " ++ after 7 line) (Some (after 7 line)) None t
                    None])%list
             (Some (length (stepsSoFar st))) (answer st) (clarifying st))
  | ActionInputLine =>
      match currentStep st with
      | Some i =>
          steps' <- executeToolAsync i (alter (setInput (after 13 line)) i (stepsSoFar st)) ;;
          ret (mkParsing steps' (currentStep st) (answer st) (clarifying st))
      | None => ret st
      end
  | FinalAnswerLine =>
      ret (mkParsing (stepsSoFar st) (currentStep st) (after 13 line)
             (if isClarifyingQuestion (after 13 line) then true else clarifying st))
  | ObservationLine | OtherLine => ret st
  end.
Proof.
  unfold parseLine, label, after.
  repeat match goal with
    | |- context [if startsWith ?p ?s then _ else _] => destruct (startsWith p s)
    end; reflexivity.
Qed.




End AnyWorld.



(** *** What [Final Answer:] lines do *)

Section AnyWorld.
Context {World : Type} `{Collaborators World}.

Lemma parseLine_answer (line : string) (st : Parsing) (w : World) :
  answer (fst (parseLine line st w)) = answerAfter line (answer st) /\
  clarifying (fst (parseLine line st w)) = clarifyingAfter line (clarifying st).
Proof.
  rewrite parseLine_by_label. unfold answerAfter, clarifyingAfter, isFinalAnswerLine.
  destruct (label line); unfold bind, ret; simpl;
    try destruct (now w);
    try (destruct (currentStep st); simpl; try destruct (executeToolAsync _ _ w));
    try destruct (isClarifyingQuestion _); auto.
Qed.

Lemma parseLines_answer (lines : list string) (st : Parsing) (w : World) :
  answer (fst (parseLines lines st w)) = lastAnswer lines (answer st) /\
  clarifying (fst (parseLines lines st w)) = anyClarifying lines (clarifying st).
Proof.
  revert st w. induction lines as [| line lines IH]; intros st w; simpl; [auto |].
  unfold bind. destruct (parseLine line st w) as [st' w'] eqn:E.
  destruct (parseLine_answer line st w) as [Ha Hc]. rewrite E in Ha, Hc; simpl in Ha, Hc.
  rewrite <- Ha, <- Hc. apply IH.
Qed.

(** A line is read the same way, as far as the steps and the world go,
    whatever answer has been seen before it. *)
Lemma parseLine_core (line : string) (st st' : Parsing) (w : World) :
  core st = core st' ->
  core (fst (parseLine line st w)) = core (fst (parseLine line st' w)) /\
  snd (parseLine line st w) = snd (parseLine line st' w).
Proof.
  unfold core. destruct st as [s c a k], st' as [s' c' a' k']; simpl.
  intros [= -> ->]. rewrite !parseLine_by_label.
  destruct (label line); unfold bind, ret; simpl; auto.
  - destruct (now w); auto.
  - destruct (now w); auto.
  - destruct c'; simpl; auto. destruct (executeToolAsync _ _ w); auto.
Qed.

Lemma parseLine_final_answer (line : string) (st : Parsing) (w : World) :
  isFinalAnswerLine line = true ->
  core (fst (parseLine line st w)) = core st /\ snd (parseLine line st w) = w.
Proof.
  unfold isFinalAnswerLine. rewrite parseLine_by_label.
  destruct (label line); try discriminate. auto.
Qed.

Lemma parseLines_core (lines : list string) (st st' : Parsing) (w : World) :
  core st = core st' ->
  core (fst (parseLines lines st w)) = core (fst (parseLines lines st' w)) /\
  snd (parseLines lines st w) = snd (parseLines lines st' w).
Proof.
  revert st st' w. induction lines as [| line lines IH]; intros st st' w Hcore; simpl.
  - auto.
  - unfold bind. destruct (parseLine_core line st st' w Hcore) as [Hc Hw].
    destruct (parseLine line st w) as [st1 w1], (parseLine line st' w) as [st1' w1'].
    simpl in Hc, Hw. subst w1'. apply IH, Hc.
Qed.

Lemma parseLines_skips_final_answers (lines : list string) (st : Parsing) (w : World) :
  core (fst (parseLines lines st w)) = core (fst (parseLines (withoutFinalAnswers lines) st w)) /\
  snd (parseLines lines st w) = snd (parseLines (withoutFinalAnswers lines) st w).
Proof.
  revert st w. induction lines as [| line lines IH]; intros st w; simpl; [auto |].
  destruct (isFinalAnswerLine line) eqn:E; simpl; unfold bind.
  - destruct (parseLine_final_answer line st w E) as [Hc Hw].
    destruct (parseLine line st w) as [st1 w1]; simpl in Hc, Hw. subst w1.
    destruct (parseLines_core lines st1 st w Hc) as [Hc' Hw'].
    rewrite Hc', Hw'. apply IH.
  - destruct (parseLine line st w) as [st1 w1]. apply IH.
Qed.

Lemma nonEmpty_inv (s : string) : nonEmpty s = true -> s <> EmptyString.
Proof. destruct s; [discriminate | discriminate]. Qed.

(** C7, amended.  A [Final Answer:] line sets the answer and nothing else:
    parsing goes on, so the steps are those that all the other lines
    produce, in order, tools included.  The answer of the loop is the text
    of the last [Final Answer:] line.  If it is empty (no such line, or
    nothing after the label), the answer is what the pattern finds in the
    whole text; if that is empty too, it is the canned sentence.  The final
    answer is never empty. *)
Theorem final_answer_lines_set_the_answer_without_stopping
    (response : string) (steps0 : list ReActStep) (w : World) :
  let r := fst (parseReActResponse response steps0 w) in
  let start := mkParsing steps0 None EmptyString false in
  let parsed := lastAnswer (linesOf response) EmptyString in
  steps r = stepsSoFar (fst (parseLines (withoutFinalAnswers (linesOf response)) start w)) /\
  finalAnswer r = (if nonEmpty parsed then parsed
                   else if nonEmpty (scanned response) then scanned response
                   else cannedAnswer) /\
  finalAnswer r <> EmptyString.
Proof.
  unfold parseReActResponse, bind, ret.
  pose (start := mkParsing steps0 None EmptyString false).
  destruct (parseLines_answer (linesOf response) start w) as [Ha _].
  destruct (parseLines_skips_final_answers (linesOf response) start w) as [Hc _].
  fold start. destruct (parseLines (linesOf response) start w) as [st w'].
  simpl in *. injection Hc as Hs _.
  assert (E : recovered response (answer st) =
              if nonEmpty (answer st) then answer st else scanned response).
  { unfold recovered, scanned. destruct (nonEmpty (answer st)) eqn:N; [reflexivity |].
    destruct (JsRegex.exec _ _ _); [reflexivity |].
    destruct (answer st); [reflexivity | discriminate]. }
  rewrite E, Ha. fold start. split; [exact Hs |].
  destruct (nonEmpty (lastAnswer _ _)) eqn:N1.
  - rewrite N1. split; [reflexivity | apply nonEmpty_inv, N1].
  - destruct (nonEmpty (scanned response)) eqn:N2.
    + split; [reflexivity | apply nonEmpty_inv, N2].
    + split; [reflexivity | discriminate].
Qed.

End AnyWorld.

(** The counterexample to C7 as stated: after the first [Final Answer:]
    line a thought is still recorded, a tool is still run, and a second
    [Final Answer:] line replaces the answer. *)
Lemma lines_after_the_final_answer_are_still_read :
  let r := fst (parseReActResponse (H := SampleWorld.offline)
                  ("Final Answer: Done." ++ nl ++
                   "Thought: one more thing" ++ nl ++
                   "Action: Search" ++ nl ++
                   "Action Input: flats in Patan" ++ nl ++
                   "Final Answer: Really done.") [] 0) in
  map type (steps r) = [thought; action; observation] /\
  map content (steps r)
  = ["one more thing";
     "Action: Search" ++ nl ++ "Action Input: flats in Patan";
     "Tool execution failed: Search failed: Network request failed"] /\
  finalAnswer r = "Really done.".
Proof. vm_compute. repeat split; reflexivity. Qed.

(** *** The clarification flag *)

(** C3, on the code.  When the answer stands on the line after the label,
    it is recovered by the pattern; it has a question mark and the phrase
    "could you", yet the flag stays false: the test is only made on the text
    of a [Final Answer:] line. *)
Theorem recovered_answer_is_not_tested_for_clarification :
  forall (World : Type) (C : Collaborators World) (steps0 : list ReActStep) (w : World),
    let r := fst (parseReActResponse askedOnTheNextLine steps0 w) in
    finalAnswer r = "Could you tell me your budget?" /\
    isClarifyingQuestion (finalAnswer r) = true /\
    needsClarification r = false.
Proof. intros. vm_compute. repeat split; reflexivity. Qed.

(** In general the flag says whether some [Final Answer:] line reads as a
    clarifying question. *)
Lemma needsClarification_from_lines {World : Type} `{Collaborators World}
    (response : string) (steps0 : list ReActStep) (w : World) :
  needsClarification (fst (parseReActResponse response steps0 w))
  = anyClarifying (linesOf response) false.
Proof.
  unfold parseReActResponse, bind, ret.
  destruct (parseLines_answer (linesOf response)
              (mkParsing steps0 None EmptyString false) w) as [_ Hc].
  destruct (parseLines _ _ w) as [st w']. exact Hc.
Qed.

(** *** Well-formed pairs of [Action:] and [Action Input:] lines *)

Section AnyWorld.
Context {World : Type} `{Collaborators World}.












End AnyWorld.


End AgentProperties.

(* ------------------------------------------------------------------------- *)
(** ** Properties of the state of the memory manager *)

Module StateProperties.
Import JsString MemoryManager MemorySpec StateSpec.

Lemma filter_split_length {A : Type} (p : A -> bool) (l : list A) :
  length l = (length (List.filter p l) + length (List.filter (fun x => negb (p x)) l))%nat.
Proof.
  induction l as [| x l IH]; simpl; [reflexivity |].
  destruct (p x); simpl; lia.
Qed.

Lemma filter_twice {A : Type} (p : A -> bool) (l : list A) :
  List.filter p (List.filter p l) = List.filter p l.
Proof.
  induction l as [| x l IH]; simpl; [reflexivity |].
  destruct (p x) eqn:E; simpl; rewrite ?E, IH; reflexivity.
Qed.

Lemma filter_none {A : Type} (p : A -> bool) (l : list A) :
  Forall (fun x => p x = false) l -> List.filter p l = [].
Proof.
  induction 1 as [| x l Hx _ IH]; simpl; [reflexivity |]. rewrite Hx. exact IH.
Qed.

Lemma filter_all {A : Type} (p : A -> bool) (l : list A) :
  Forall (fun x => p x = true) l -> List.filter p l = l.
Proof.
  induction 1 as [| x l Hx _ IH]; simpl; [reflexivity |]. rewrite Hx, IH. reflexivity.
Qed.

Lemma others_are_not_system (ms : list ConversationMessage) :
  Forall (fun m => isSystem (role m) = false) (othersOf ms).
Proof.
  unfold othersOf. apply List.Forall_forall. intros m Hm.
  apply filter_In in Hm as [_ Hm]. apply negb_true_iff, Hm.
Qed.

Lemma Forall_drop_keep {A : Type} (P : A -> Prop) (n : nat) (l : list A) :
  Forall P l -> Forall P (drop n l).
Proof.
  revert n. induction l as [| x l IH]; intros [| n] HF; simpl; auto.
  inversion HF; auto.
Qed.

(** What a trimmed list of messages looks like. *)
Lemma trimmed_parts (systems others : list ConversationMessage) (n : nat) :
  Forall (fun m => isSystem (role m) = true) systems ->
  Forall (fun m => isSystem (role m) = false) others ->
  systemsOf (systems ++ drop n others) = systems /\
  othersOf (systems ++ drop n others) = drop n others.
Proof.
  intros Hs Ho. unfold systemsOf, othersOf. rewrite !List.filter_app.
  pose proof (Forall_drop_keep _ n _ Ho) as Hd.
  rewrite (filter_all _ systems Hs), (filter_none _ (drop n others) Hd), app_nil_r.
  split; [reflexivity |].
  rewrite (filter_none _ systems), (filter_all _ (drop n others)); [reflexivity | |].
  - eapply Forall_impl; [exact Hd |]. intros m Hm; simpl in Hm. rewrite Hm. reflexivity.
  - eapply Forall_impl; [exact Hs |]. intros m Hm; simpl in Hm. rewrite Hm. reflexivity.
Qed.

Lemma systems_are_system (ms : list ConversationMessage) :
  Forall (fun m => isSystem (role m) = true) (systemsOf ms).
Proof.
  unfold systemsOf. apply List.Forall_forall. intros m Hm.
  apply filter_In in Hm as [_ Hm]. exact Hm.
Qed.

(** With fewer than 20 system messages, trimming leaves at most 20
    messages: a session of at most 20 is left as it is; a longer one becomes
    exactly 20 messages, namely all its system messages followed by its most
    recent other messages.  The preferences are not touched. *)
Theorem trim_caps_the_session_at_twenty (mm : Manager) :
  (length (systemsOf (sessionMessages mm)) < 20)%nat ->
  let before := sessionMessages mm in
  let after := sessionMessages (trimMemoryIfNeeded mm) in
  (length after <= 20)%nat /\
  ((length before <= 20)%nat -> after = before) /\
  ((20 < length before)%nat ->
   length after = 20%nat /\
   exists dropped kept,
     othersOf before = (dropped ++ kept)%list /\
     after = (systemsOf before ++ kept)%list) /\
  systemsOf after = systemsOf before /\
  userPreferences (trimMemoryIfNeeded mm) = userPreferences mm.
Proof.
  unfold sessionMessages, trimMemoryIfNeeded.
  destruct (currentSession mm) as [session |] eqn:Hs; [| rewrite Hs; simpl; intuition lia].
  fold (systemsOf (messages session)). fold (othersOf (messages session)).
  intros Hsys. unfold maxMessagesInMemory.
  assert (Hlen : length (messages session)
                 = (length (systemsOf (messages session))
                    + length (othersOf (messages session)))%nat)
    by apply filter_split_length.
  destruct (Nat.ltb_spec 20 (length (messages session))) as [Hlong | Hshort].
  - cbn [currentSession userPreferences setMessages messages].
    unfold sliceFrom.
    set (sys := systemsOf (messages session)) in *.
    set (oth := othersOf (messages session)) in *.
    destruct (Z.ltb_spec (- Z.of_nat 20 + Z.of_nat (length sys)) 0) as [_ | Hbad]; [| lia].
    set (n := Z.to_nat (Z.max (Z.of_nat (length oth)
                               + (- Z.of_nat 20 + Z.of_nat (length sys))) 0)).
    assert (Hn : n = (length oth - (20 - length sys))%nat) by (unfold n; lia).
    destruct (trimmed_parts sys oth n (systems_are_system _) (others_are_not_system _))
      as [Hsys' _].
    assert (Hl : length (sys ++ drop n oth) = 20%nat).
    { rewrite length_app, length_drop. lia. }
    split; [lia |]. split; [intros; lia |].
    split; [| split; [exact Hsys' | reflexivity]].
    intros _. split; [exact Hl |].
    exists (take n oth), (drop n oth). rewrite take_drop. auto.
  - rewrite Hs. split; [lia |]. split; [reflexivity |].
    split; [intros; lia | split; reflexivity].
Qed.

(** The witness: 19 system messages and 3 others. *)
Lemma trim_caps_witness :
  let mm := holding (repeat (note system "rule") 19
                     ++ [note user "a"; note assistant "b"; note user "c"]) in
  (length (systemsOf (sessionMessages mm)) < 20)%nat /\
  (length (sessionMessages (trimMemoryIfNeeded mm)) <= 20)%nat.
Proof.
  split; [vm_compute; lia |].
  apply (trim_caps_the_session_at_twenty
           (holding (repeat (note system "rule") 19
                     ++ [note user "a"; note assistant "b"; note user "c"]))).
  vm_compute; lia.
Defined.

(** With exactly 20 system messages the cap does nothing: [slice(-20 + 20)]
    is [slice(0)], so every other message is kept, after the system
    messages. *)
Theorem twenty_system_messages_defeat_the_cap (mm : Manager) :
  length (systemsOf (sessionMessages mm)) = 20%nat ->
  (20 < length (sessionMessages mm))%nat ->
  sessionMessages (trimMemoryIfNeeded mm)
  = (systemsOf (sessionMessages mm) ++ othersOf (sessionMessages mm))%list /\
  length (sessionMessages (trimMemoryIfNeeded mm)) = length (sessionMessages mm).
Proof.
  unfold sessionMessages, trimMemoryIfNeeded.
  destruct (currentSession mm) as [session |] eqn:Hs; [| simpl; lia].
  intros Hsys Hlong. unfold maxMessagesInMemory.
  destruct (Nat.ltb_spec 20 (length (messages session))) as [_ | Hshort]; [| lia].
  cbn [currentSession setMessages messages].
  fold (systemsOf (messages session)). fold (othersOf (messages session)).
  rewrite Hsys. unfold sliceFrom.
  change (- Z.of_nat 20 + Z.of_nat 20) with 0. cbn [Z.ltb Z.compare].
  replace (Z.to_nat (Z.min 0 (Z.of_nat (length (othersOf (messages session))))))
    with 0%nat by lia.
  rewrite drop_0. split; [reflexivity |].
  rewrite length_app. symmetry. apply filter_split_length.
Qed.

Lemma twenty_system_messages_witness :
  let mm := holding (repeat (note system "rule") 20 ++ [note user "a"; note user "b"]) in
  length (systemsOf (sessionMessages mm)) = 20%nat /\
  (20 < length (sessionMessages mm))%nat /\
  length (sessionMessages (trimMemoryIfNeeded mm)) = length (sessionMessages mm).
Proof.
  split; [reflexivity |]. split; [vm_compute; lia |].
  apply (twenty_system_messages_defeat_the_cap
           (holding (repeat (note system "rule") 20 ++ [note user "a"; note user "b"])));
    [reflexivity | vm_compute; lia].
Defined.

Lemma last_of_drop {A : Type} (n : nat) (l : list A) :
  (n < length l)%nat -> last (drop n l) = last l.
Proof.
  intros Hn. rewrite !last_lookup, lookup_drop, length_drop. f_equal. lia.
Qed.

(** [addToSearchHistory] appends the query, duplicates included, and then
    keeps the last 50 entries; nothing else in the preferences changes
    except [updatedAt].  Without preferences it does nothing. *)
Theorem search_history_keeps_the_last_fifty (query : string) (clock : Z) (mm : Manager) :
  let mm' := addToSearchHistory query clock mm in
  match userPreferences mm with
  | None => mm' = mm
  | Some p =>
      (exists dropped,
         (storedHistory mm ++ [query])%list = (dropped ++ storedHistory mm')%list) /\
      length (storedHistory mm') = Nat.min (length (storedHistory mm) + 1) 50 /\
      last (storedHistory mm') = Some query /\
      storedLocations mm' = storedLocations mm /\
      storedTypes mm' = storedTypes mm /\
      storedRange mm' = storedRange mm /\
      currentSession mm' = currentSession mm
  end.
Proof.
  unfold addToSearchHistory, storedHistory, storedLocations, storedTypes, storedRange.
  destruct (userPreferences mm) as [p |] eqn:Hp; [| reflexivity].
  unfold updateUserPreferences. rewrite Hp.
  cbn [userPreferences searchHistory locations propertyType priceRange overwrite
       newSearchHistory newLocations newPropertyType newPriceRange currentSession default].
  set (pushed := (default [] (searchHistory p) ++ [query])%list).
  assert (Hlen : length pushed = (length (default [] (searchHistory p)) + 1)%nat)
    by (unfold pushed; rewrite length_app; reflexivity).
  assert (Hlast : last pushed = Some query) by (unfold pushed; apply last_snoc).
  destruct (Nat.ltb_spec 50 (length pushed)) as [Hlong | Hshort].
  - change (Datatypes.id (drop (length pushed - 50) pushed))
      with (drop (length pushed - 50) pushed).
    split; [exists (take (length pushed - 50) pushed); rewrite take_drop; reflexivity |].
    split; [rewrite length_drop; lia |].
    split; [| auto].
    rewrite last_of_drop by lia. exact Hlast.
  - change (Datatypes.id pushed) with pushed. split; [exists []; reflexivity |].
    split; [lia |]. auto.
Qed.

(** [getSearchHistory(limit)] returns the last [limit] entries when the
    limit is positive, but the whole history when the limit is 0
    ([slice(-0)]), and the history without its first [-limit] entries when
    it is negative. *)
Theorem search_history_limit (limit : Z) (mm : Manager) :
  let history := storedHistory mm in
  let shown := getSearchHistory limit mm in
  (0 < limit ->
   shown = drop (length history - Z.to_nat limit) history /\
   length shown = Nat.min (Z.to_nat limit) (length history)) /\
  (limit = 0 -> shown = history) /\
  (limit < 0 -> shown = drop (Z.to_nat (- limit)) history).
Proof.
  unfold storedHistory, getSearchHistory.
  assert (Hnil : forall shown : list string, shown = [] ->
            (0 < limit ->
             shown = drop (length (@nil string) - Z.to_nat limit) [] /\
             length shown = Nat.min (Z.to_nat limit) (length (@nil string))) /\
            (limit = 0 -> shown = []) /\
            (limit < 0 -> shown = drop (Z.to_nat (- limit)) [])).
  { intros shown ->. rewrite !drop_nil. simpl. repeat split; auto. lia. }
  destruct (userPreferences mm) as [p |]; [| apply Hnil; reflexivity].
  destruct (searchHistory p) as [history |]; cbn [from_option Datatypes.id];
    [| apply Hnil; reflexivity].
  clear Hnil.
  unfold sliceFrom.
  split; [| split].
  - intros Hpos. destruct (Z.ltb_spec (- limit) 0) as [_ | Hbad]; [| lia].
    replace (Z.to_nat (Z.max (Z.of_nat (length history) + - limit) 0))
      with (length history - Z.to_nat limit)%nat by lia.
    split; [reflexivity | rewrite length_drop; lia].
  - intros ->. destruct (Z.ltb_spec (- 0) 0) as [Hbad | _]; [lia |].
    replace (Z.to_nat (Z.min (- 0) (Z.of_nat (length history)))) with 0%nat by lia.
    apply drop_0.
  - intros Hneg. destruct (Z.ltb_spec (- limit) 0) as [Hbad | _]; [lia |].
    destruct (Z.le_ge_cases (- limit) (Z.of_nat (length history))) as [Hin | Hout].
    + rewrite Z.min_l by lia. reflexivity.
    + rewrite Z.min_r by lia. rewrite Nat2Z.id, !drop_ge by lia. reflexivity.
Qed.

(** *** What the extraction adds *)

Lemma uniqueAfter_In (seen xs : list string) (x : string) :
  In x (uniqueAfter seen xs) <-> In x xs /\ ~ In x seen.
Proof.
  revert seen. induction xs as [| y xs IH]; intros seen; simpl; [tauto |].
  destruct (existsb (String.eqb y) seen) eqn:E.
  - apply existsb_exists in E as (z & Hz & Hyz). apply String.eqb_eq in Hyz. subst z.
    rewrite IH. split; [tauto |]. intros [[-> | Hx] Hn]; tauto.
  - assert (Hy : ~ In y seen).
    { intros Hy. apply not_true_iff_false in E. apply E, existsb_exists.
      exists y. split; [exact Hy | apply String.eqb_refl]. }
    simpl. rewrite IH. simpl. split.
    + intros [-> | [Hx Hn]]; [tauto |]. split; [tauto |]. intros Hs. apply Hn. tauto.
    + intros [[-> | Hx] Hn]; [tauto |].
      destruct (string_dec y x) as [-> | Hne]; [tauto |]. right. split; [exact Hx |].
      intros [-> | Hs]; tauto.
Qed.

Lemma uniqueAfter_NoDup (seen xs : list string) : List.NoDup (uniqueAfter seen xs).
Proof.
  revert seen. induction xs as [| y xs IH]; intros seen; simpl; [constructor |].
  destruct (existsb (String.eqb y) seen); [apply IH |].
  constructor; [| apply IH]. rewrite uniqueAfter_In. simpl. tauto.
Qed.

(** A merged list holds what was known and what is mentioned, and nothing
    else; when something is mentioned it has no duplicates. *)
Lemma merged_adds (current : option (list string)) (mentioned : list string) :
  let result := default [] (overwrite (merged current mentioned) current) in
  (forall x, In x result <-> In x (default [] current) \/ In x mentioned) /\
  (result = default [] current \/ List.NoDup result).
Proof.
  unfold merged. destruct mentioned as [| m mentioned]; cbn [overwrite].
  - split; [intros x; simpl; tauto | left; reflexivity].
  - cbn [from_option Datatypes.id]. split; [| right; apply uniqueAfter_NoDup].
    intros x. unfold unique. rewrite uniqueAfter_In, in_app_iff. simpl. tauto.
Qed.

(** The extraction of [lib/memory-manager.ts] never forgets a location or a
    kind of property: after a message, the stored lists hold what they held
    plus the names of the fixed lists that the message mentions in any
    case, and a list that changed has no duplicates.  The search history
    and the session are left alone. *)
Theorem extraction_only_adds_places_and_kinds
    (userMessage : string) (clock : Z) (mm : Manager) :
  let mm' := extractAndUpdatePreferences userMessage clock mm in
  match userPreferences mm with
  | None => mm' = mm
  | Some _ =>
      (forall x, In x (storedLocations mm') <->
                 In x (storedLocations mm) \/
                 (In x places /\ includes x (toLowerCase userMessage) = true)) /\
      (forall x, In x (storedTypes mm') <->
                 In x (storedTypes mm) \/
                 (In x kinds /\ includes x (toLowerCase userMessage) = true)) /\
      (storedLocations mm' = storedLocations mm \/ List.NoDup (storedLocations mm')) /\
      (storedTypes mm' = storedTypes mm \/ List.NoDup (storedTypes mm')) /\
      storedHistory mm' = storedHistory mm /\
      currentSession mm' = currentSession mm
  end.
Proof.
  unfold extractAndUpdatePreferences, storedLocations, storedTypes, storedHistory.
  destruct (userPreferences mm) as [p |] eqn:Hp; [| reflexivity].
  pose proof (merged_adds (locations p)
                (mentionedIn (toLowerCase userMessage) places)) as [HL HL'].
  pose proof (merged_adds (propertyType p)
                (mentionedIn (toLowerCase userMessage) kinds)) as [HT HT'].
  assert (Hm : forall words x,
             In x (mentionedIn (toLowerCase userMessage) words) <->
             In x words /\ includes x (toLowerCase userMessage) = true)
    by (intros; unfold mentionedIn; rewrite filter_In; reflexivity).
  destruct (anyUpdate (extracted p userMessage)) eqn:Hany.
  - unfold updateUserPreferences. rewrite Hp.
    cbn [userPreferences locations propertyType searchHistory currentSession
         extracted newLocations newPropertyType newSearchHistory overwrite].
    split; [intros x; rewrite <- Hm; apply HL |].
    split; [intros x; rewrite <- Hm; apply HT |].
    repeat split; auto.
  - rewrite Hp.
    unfold anyUpdate in Hany. apply orb_false_elim in Hany as [Hany _].
    apply orb_false_elim in Hany as [Hany _].
    apply orb_false_elim in Hany as [Hany HnoT].
    apply orb_false_elim in Hany as [_ HnoL].
    cbn [extracted newLocations newPropertyType] in HnoL, HnoT.
    change (isSet (merged (locations p)
                     (mentionedIn (toLowerCase userMessage) places)) = false) in HnoL.
    change (isSet (merged (propertyType p)
                     (mentionedIn (toLowerCase userMessage) kinds)) = false) in HnoT.
    destruct (merged (locations p) _); [discriminate |].
    destruct (merged (propertyType p) _); [discriminate |].
    cbn [overwrite] in HL, HT.
    split; [intros x; rewrite <- Hm; apply HL |].
    split; [intros x; rewrite <- Hm; apply HT |].
    repeat split; auto.
Qed.

Lemma includes_unfold (sub s : string) :
  includes sub s =
  String.prefix sub s
  || match s with EmptyString => false | String _ r => includes sub r end.
Proof. destruct s; reflexivity. Qed.

Lemma prefix_then_includes (a b s : string) :
  String.prefix (a ++ b) s = true -> includes b s = true.
Proof.
  revert s. induction a as [| c a IH]; intros s Hp.
  - rewrite includes_unfold. change (String.prefix b s = true) in Hp. rewrite Hp.
    reflexivity.
  - destruct s as [| d s]; [discriminate |].
    change (String.prefix (String c (a ++ b)) (String d s) = true) in Hp.
    cbn [String.prefix] in Hp. destruct (ascii_dec c d); [| discriminate].
    rewrite includes_unfold, (IH s Hp). apply orb_true_r.
Qed.

(** A text that includes [a ++ b] includes [b]. *)
Lemma includes_suffix (a b s : string) :
  includes (a ++ b) s = true -> includes b s = true.
Proof.
  induction s as [| c s IH]; rewrite includes_unfold; intros Hi.
  - rewrite orb_false_r in Hi. exact (prefix_then_includes _ _ _ Hi).
  - apply orb_prop in Hi as [Hp | Hr].
    + exact (prefix_then_includes _ _ _ Hp).
    + rewrite includes_unfold, (IH Hr). apply orb_true_r.
Qed.

(** What the manager holds after [if (Object.keys(updates).length > 0)
    updateUserPreferences(updates)]. *)
Lemma stored_after_updates (u : Updates) (clock : Z) (mm : Manager) (p : UserPreferences) :
  userPreferences mm = Some p ->
  let mm' := if anyUpdate u then updateUserPreferences u clock mm else mm in
  storedLocations mm' = default [] (overwrite (newLocations u) (locations p)) /\
  storedTypes mm' = default [] (overwrite (newPropertyType u) (propertyType p)) /\
  storedBedrooms mm' = overwrite (newBedrooms u) (bedrooms p) /\
  storedAmenities mm' = default [] (overwrite (newAmenities u) (amenities p)) /\
  storedHistory mm' = default [] (overwrite (newSearchHistory u) (searchHistory p)) /\
  currentSession mm' = currentSession mm.
Proof.
  intros Hp. unfold storedLocations, storedTypes, storedBedrooms, storedAmenities,
    storedHistory.
  destruct (anyUpdate u) eqn:Hany.
  - unfold updateUserPreferences. rewrite Hp. repeat split; reflexivity.
  - rewrite Hp. destruct u as [r b l t a h]. unfold anyUpdate in Hany. simpl in Hany.
    destruct r, b, l, t, a, h; try discriminate. repeat split; reflexivity.
Qed.

(** The revision with the more comprehensive patterns also only adds to the
    stored locations and kinds of property: a name of its gazetteer that
    the message includes (the tests for "in", "near" and "around" add
    nothing to that), a kind whose keyword the message includes.  A bedroom
    count is only stored when it is between 1 and 10, and the amenity
    "family-friendly" is added at most once. *)
Theorem comprehensive_extraction_adds_within_bounds
    (userMessage : string) (clock : Z) (mm : Manager) :
  let mm' := Comprehensive.extractAndUpdatePreferences userMessage clock mm in
  match userPreferences mm with
  | None => mm' = mm
  | Some _ =>
      (forall x, In x (storedLocations mm') <->
                 In x (storedLocations mm) \/
                 (In x Comprehensive.gazetteer /\
                  includes x (toLowerCase userMessage) = true)) /\
      (forall x, In x (storedTypes mm') <->
                 In x (storedTypes mm) \/
                 exists keyword,
                   In (keyword, x) Comprehensive.propertyTypeMap /\
                   includes keyword (toLowerCase userMessage) = true) /\
      (storedBedrooms mm' = storedBedrooms mm \/
       exists b, storedBedrooms mm' = Some b /\ 1 <= b <= 10) /\
      (storedAmenities mm' = storedAmenities mm \/
       (~ In "family-friendly" (storedAmenities mm) /\
        storedAmenities mm' = (storedAmenities mm ++ ["family-friendly"])%list)) /\
      storedHistory mm' = storedHistory mm /\
      currentSession mm' = currentSession mm
  end.
Proof.
  unfold Comprehensive.extractAndUpdatePreferences.
  destruct (userPreferences mm) as [p |] eqn:Hp; [| reflexivity].
  destruct (stored_after_updates (Comprehensive.extracted p userMessage) clock mm p Hp)
    as (-> & -> & -> & -> & -> & ->).
  unfold storedLocations, storedTypes, storedBedrooms, storedAmenities, storedHistory.
  rewrite Hp. unfold Comprehensive.extracted.
  cbn [newLocations newPropertyType newBedrooms newAmenities newSearchHistory].
  set (message := toLowerCase userMessage).
  split; [| split; [| split; [| split; [| split; reflexivity]]]].
  - intros x. rewrite (proj1 (merged_adds (locations p) _) x), filter_In.
    split; (intros [Hx | [Hg Hi]]; [left; exact Hx | right; split; [exact Hg |]]).
    + apply orb_prop in Hi as [Hi | Hi]; [| exact (includes_suffix _ _ _ Hi)].
      apply orb_prop in Hi as [Hi | Hi]; [| exact (includes_suffix _ _ _ Hi)].
      apply orb_prop in Hi as [Hi | Hi]; [exact Hi | exact (includes_suffix _ _ _ Hi)].
    + rewrite Hi. reflexivity.
  - intros x. rewrite (proj1 (merged_adds (propertyType p) _) x), in_map_iff.
    split; (intros [Hx | Hk]; [left; exact Hx | right]).
    + destruct Hk as ([keyword kind] & Hkind & Hk). simpl in Hkind. subst kind.
      apply filter_In in Hk as [Hk Hi]. exists keyword. auto.
    + destruct Hk as (keyword & Hk & Hi). exists (keyword, x). split; [reflexivity |].
      apply filter_In. auto.
  - destruct (Comprehensive.firstMatch Comprehensive.bedroomPatterns message);
      cbn [overwrite]; [| left; reflexivity].
    set (count := Comprehensive.bedroomCount _).
    destruct (Z.gtb_spec count 0), (Z.leb_spec count 10); cbn [andb overwrite];
      try (left; reflexivity).
    right. exists count. split; [reflexivity | lia].
  - destruct (_ || _ || _ || _); cbn [overwrite]; [| left; reflexivity].
    destruct (existsb (String.eqb "family-friendly") (default [] (amenities p))) eqn:E;
      cbn [overwrite]; [left; reflexivity | right].
    split; [| reflexivity].
    intros Hin. apply not_true_iff_false in E. apply E, existsb_exists.
    exists "family-friendly". split; [exact Hin | reflexivity].
Qed.

(** *** The context of a session that fits the budget *)

Lemma tokenSum_split (ms : list ConversationMessage) :
  (tokenSum ms == tokenSum (systemsOf ms) + tokenSum (othersOf ms))%Q.
Proof.
  unfold systemsOf, othersOf.
  induction ms as [| m ms IH]; simpl.
  - unfold tokenSum; simpl. lra.
  - destruct (isSystem (role m)); simpl;
      rewrite !MemoryProperties.tokenSum_cons, IH; lra.
Qed.

(** The context only holds messages of the session, each at most as often
    as the session does; and when the estimate of the whole session is
    within 8000, it holds them all: the other messages in their order,
    then the system messages. *)
Theorem context_of_a_small_session_is_complete (mm : Manager) :
  (forall m, In m (getConversationContext mm) -> In m (sessionMessages mm)) /\
  (length (getConversationContext mm) <= length (sessionMessages mm))%nat /\
  ((tokenSum (sessionMessages mm) <= maxTokensEstimate)%Q ->
   getConversationContext mm
   = (othersOf (sessionMessages mm) ++ systemsOf (sessionMessages mm))%list).
Proof.
  unfold getConversationContext, sessionMessages.
  destruct (currentSession mm) as [session |]; [| simpl; auto].
  unfold optimizeMessagesForContext.
  fold (systemsOf (messages session)). fold (othersOf (messages session)).
  destruct (MemoryProperties.addRecent_takes (rev (othersOf (messages session)))
              (systemsOf (messages session))
              (0 + tokenSum (systemsOf (messages session))))
    as (taken & left & Hsplit & -> & _ & Hout).
  assert (Hoth : othersOf (messages session) = (rev left ++ rev taken)%list)
    by (rewrite <- rev_app_distr, <- Hsplit, rev_involutive; reflexivity).
  split; [| split].
  - intros m Hm. apply in_app_or in Hm as [Hm | Hm].
    + assert (Ho : In m (othersOf (messages session)))
        by (rewrite Hoth; apply in_or_app; right; exact Hm).
      unfold othersOf in Ho. apply filter_In in Ho. tauto.
    + unfold systemsOf in Hm. apply filter_In in Hm. tauto.
  - rewrite (filter_split_length (fun m => isSystem (role m)) (messages session)).
    fold (systemsOf (messages session)).
    change (List.filter _ (messages session)) with (othersOf (messages session)).
    rewrite Hoth, !length_app. lia.
  - intros Hfit. destruct left as [| m left].
    + rewrite Hoth. reflexivity.
    + exfalso.
      pose proof (tokenSum_split (messages session)) as Hall.
      rewrite Hoth in Hall. simpl rev in Hall.
      rewrite !MemoryProperties.tokenSum_app, !MemoryProperties.tokenSum_rev,
        MemoryProperties.tokenSum_cons in Hall.
      pose proof (MemoryProperties.tokenSum_nonneg left) as Hleft.
      pose proof (MemoryProperties.tokenSum_nonneg []) as Hnil.
      lra.
Qed.
End StateProperties.
